(** * The page viewer's inner layout: render scheduling, plugins, zoom and rotation

    A shallow embedding of [packages/core/src/layouts/Inner.tsx].  The React
    component is modelled by explicit state passing: one record holds the
    component's state cells and refs, every callback of the component is a
    function on that record, and calls on external collaborators (the
    virtualizer, the event callbacks of the host, the plugin hooks) are
    appended to a trace kept in the record. *)

From Stdlib Require Import QArith Sorted DecimalString DecimalPos DecimalZ.
From stdpp Require Import base option list gmap strings.

Local Open Scope Z_scope.

(** ** Enumerations used by the component *)

(** [structs/RotateDirection] *)
Inductive RotateDirection := Backward | Forward.

(** [structs/ScrollMode]; the three members are the ones [renderViewer] tests. *)
Inductive ScrollMode := Horizontal | Vertical | Wrapped.

(** [structs/SpecialZoomLevel] is a string-valued enumeration: [zoom] tells a
    special level from a numeric scale by [typeof newScale === 'string']. *)
Definition SpecialZoomLevel := string.

(** The render lifecycle of one page. *)
Inductive PageRenderStatus := NotRendered | Rendering | Rendered.

#[global] Instance RotateDirection_eq_dec : EqDecision RotateDirection.
Proof. solve_decision. Defined.
#[global] Instance ScrollMode_eq_dec : EqDecision ScrollMode.
Proof. solve_decision. Defined.
#[global] Instance PageRenderStatus_eq_dec : EqDecision PageRenderStatus.
Proof. solve_decision. Defined.

(** Page indices [lo, lo+1, ..., hi], the values a loop
    [for (let i = lo; i <= hi; i++)] runs through. *)
Definition pageIndices (lo hi : Z) : list Z :=
  (fun k : nat => lo + Z.of_nat k) <$> seq 0 (Z.to_nat (hi - lo + 1)).

(** ** The render queue *)

Module RenderQueue.

(** Modelled from the spec: the hook [hooks/useRenderQueue] is not among the
    sources; only its use in [Inner.tsx] is.  The queue "tracks a per-item
    render lifecycle (not-rendered, rendering, rendered)" and "chooses, among
    visible-but-unrendered items, the next one to render based on a priority
    heuristic (visibility fraction)".  It holds the range of pages that may
    be rendered, and for each page a status and the visibility fraction last
    recorded for it.  A page without an entry is not rendered and has
    visibility 0. *)
Record t := mk {
  numPages : Z;
  startRange : Z;
  endRange : Z;
  statuses : gmap Z PageRenderStatus;
  visibilities : gmap Z Q
}.

(** Modelled from the spec: the queue [useRenderQueue({ doc })] starts with
    every page not rendered. *)
Definition useRenderQueue (n : Z) : t := mk n 0 (n - 1) ∅ ∅.

(** Modelled from the spec: the status of a page. *)
Definition renderStatus (q : t) (p : Z) : PageRenderStatus :=
  default NotRendered (statuses q !! p).

(** Modelled from the spec: the visibility fraction recorded for a page. *)
Definition visibility (q : t) (p : Z) : Q :=
  default 0%Q (visibilities q !! p).

(** Modelled from the spec: the global reset; every page is not rendered again. *)
Definition markNotRendered (q : t) : t :=
  mk (numPages q) (startRange q) (endRange q) ∅ (visibilities q).

(** Modelled from the spec: the page is marked rendered. *)
Definition markRendered (p : Z) (q : t) : t :=
  mk (numPages q) (startRange q) (endRange q) (<[p := Rendered]> (statuses q))
     (visibilities q).

(** Modelled from the spec: the page is marked rendering. *)
Definition markRendering (p : Z) (q : t) : t :=
  mk (numPages q) (startRange q) (endRange q) (<[p := Rendering]> (statuses q))
     (visibilities q).

(** Modelled from the spec: the range of pages that will be rendered. *)
Definition setRange (s e : Z) (q : t) : t :=
  mk (numPages q) s e (statuses q) (visibilities q).

(** Modelled from the spec: records the visibility fraction of a page. *)
Definition setVisibility (p : Z) (v : Q) (q : t) : t :=
  mk (numPages q) (startRange q) (endRange q) (statuses q)
     (<[p := v]> (visibilities q)).

(** Modelled from the spec: membership in the range set by [setRange]. *)
Definition isInRange (q : t) (p : Z) : bool :=
  (startRange q <=? p) && (p <=? endRange q).

(** Modelled from the spec: a page is visible when its recorded visibility
    fraction is positive. *)
Definition isVisible (q : t) (p : Z) : bool :=
  negb (Qle_bool (visibility q p) 0).

(** Modelled from the spec: the pages of the document, [0 .. numPages - 1]. *)
Definition pagesOfDocument (q : t) : list Z :=
  pageIndices 0 (numPages q - 1).

(** Modelled from the spec: the items the scheduler chooses among, visible but
    not rendered. *)
Definition isCandidate (q : t) (p : Z) : bool :=
  isVisible q p && bool_decide (renderStatus q p = NotRendered).

(** Modelled from the spec: one pass over the pages, keeping the best page seen so far
    ([-1] while there is none); a later page replaces it only when its
    visibility fraction is strictly greater. *)
Fixpoint pickHighest (q : t) (pages : list Z) (best : Z) : Z :=
  match pages with
  | [] => best
  | p :: rest =>
      if isCandidate q p
         && ((best =? -1) || negb (Qle_bool (visibility q p) (visibility q best)))
      then pickHighest q rest p
      else pickHighest q rest best
  end.

(** Modelled from the spec: the visible-but-unrendered page of the document
    with the greatest visibility fraction, [-1] when there is none.  Whether
    the page lies in the range is not looked at here: [renderNextPage] asks
    [isInRange] for that. *)
Definition getHighestPriorityPage (q : t) : Z :=
  pickHighest q (pagesOfDocument q) (-1).

End RenderQueue.

(** ** Collaborators outside the component *)

(** The numbers of the host language that carry scales and page sizes, with
    the three operations the component applies to them ([*], [/], [===]) and
    the literal [1]; the DOM element behind [pagesRef]; and the imported
    [calculateScale], whose source is [layouts/calculateScale]. *)
Class Platform := {
  num : Type;
  num_mul : num -> num -> num;
  num_div : num -> num -> num;
  num_eqb : num -> num -> bool;
  num_one : num;
  Ele : Type;
  calculateScale : Ele -> num -> num -> SpecialZoomLevel -> num
}.

Module Rect.
Record t {P : Platform} := mk { height : num; width : num }.
End Rect.

Module PageSize.
Record t {P : Platform} := mk { pageHeight : num; pageWidth : num; scale : num }.
End PageSize.

(** [types/ViewerState]: the fields that [Inner.tsx] reads or writes. *)
Module ViewerState.
Record t {P : Platform} := mk {
  pageIndex : Z;
  rotation : Z;
  scale : num;
  scrollMode : ScrollMode;
  pagesRotation : gmap Z Z;
  rotatedPage : option Z
}.
End ViewerState.

(** [types/Plugin]: plugin objects are opaque.  Of the [install] and
    [uninstall] hooks only the presence is modelled, a call being recorded in
    the trace; [onViewerStateChange] maps a viewer state to a viewer state. *)
Module Plugin.
Record t {P : Platform} := mk {
  install : bool;
  uninstall : bool;
  onViewerStateChange : option (ViewerState.t -> ViewerState.t)
}.
End Plugin.

(** One item of [virtualizer.virtualItems]. *)
Module VirtualItem.
Record t := mk { index : Z; visibility : Q }.
End VirtualItem.

(** What the component reads from the object returned by [useVirtual]. *)
Module Virtual.
Record t := mk {
  startRange : Z;
  endRange : Z;
  maxVisbilityIndex : Z;
  virtualItems : list VirtualItem.t
}.
End Virtual.

(** The object [pluginMethods] handed to the plugin hooks, as the list of its
    property names in the order of the object literal. *)
Definition PluginFunctions := list string.

(** Calls that leave the component. *)
Inductive Effect {P : Platform} :=
| ScrollToItem (index : Z) (left top : Z)
| VirtualizerZoom (ratio : num)
| OnZoom (scale : num)
| OnRotate (direction : RotateDirection) (rotation : Z)
| OnRotatePage (direction : RotateDirection) (pageIndex : Z) (rotation : Z)
| PluginInstall (plugin : nat) (methods : PluginFunctions)
| PluginUninstall (plugin : nat) (methods : PluginFunctions).

(** The props of [Inner] that the modelled callbacks use; [numPages] is
    [doc.numPages]. *)
Record Props {P : Platform} := {
  numPages : Z;
  defaultScale : option (num + SpecialZoomLevel);
  initialPage : Z;
  pageSize : PageSize.t;
  plugins : list Plugin.t;
  scrollMode : ScrollMode;
  viewerState : ViewerState.t
}.

(** The state cells ([React.useState]) and refs ([React.useRef]) of the
    component, the render queue, and the trace of outgoing calls (oldest
    first). *)
Record State {P : Platform} := {
  currentPage : Z;
  rotation : Z;
  pagesRotationChanged : bool;
  pagesRotation : gmap Z Z;
  currentScrollMode : ScrollMode;
  scale : num;
  stateRef : ViewerState.t;
  keepSpecialZoomLevelRef : option SpecialZoomLevel;
  renderPageIndex : Z;
  renderQueueKey : Z;
  renderQueue : RenderQueue.t;
  pagesRef : option Ele;
  effects : list Effect
}.

(** ** Writing to the state cells and refs *)

Section Component.
Context {P : Platform}.

Definition setCurrentPage (v : Z) (st : State) : State :=
  {| currentPage := v; rotation := rotation st;
     pagesRotationChanged := pagesRotationChanged st; pagesRotation := pagesRotation st;
     currentScrollMode := currentScrollMode st; scale := scale st;
     stateRef := stateRef st; keepSpecialZoomLevelRef := keepSpecialZoomLevelRef st;
     renderPageIndex := renderPageIndex st; renderQueueKey := renderQueueKey st;
     renderQueue := renderQueue st; pagesRef := pagesRef st; effects := effects st |}.

Definition setRotation (v : Z) (st : State) : State :=
  {| currentPage := currentPage st; rotation := v;
     pagesRotationChanged := pagesRotationChanged st; pagesRotation := pagesRotation st;
     currentScrollMode := currentScrollMode st; scale := scale st;
     stateRef := stateRef st; keepSpecialZoomLevelRef := keepSpecialZoomLevelRef st;
     renderPageIndex := renderPageIndex st; renderQueueKey := renderQueueKey st;
     renderQueue := renderQueue st; pagesRef := pagesRef st; effects := effects st |}.

Definition setPagesRotationChanged (f : bool -> bool) (st : State) : State :=
  {| currentPage := currentPage st; rotation := rotation st;
     pagesRotationChanged := f (pagesRotationChanged st); pagesRotation := pagesRotation st;
     currentScrollMode := currentScrollMode st; scale := scale st;
     stateRef := stateRef st; keepSpecialZoomLevelRef := keepSpecialZoomLevelRef st;
     renderPageIndex := renderPageIndex st; renderQueueKey := renderQueueKey st;
     renderQueue := renderQueue st; pagesRef := pagesRef st; effects := effects st |}.

Definition setPagesRotation (v : gmap Z Z) (st : State) : State :=
  {| currentPage := currentPage st; rotation := rotation st;
     pagesRotationChanged := pagesRotationChanged st; pagesRotation := v;
     currentScrollMode := currentScrollMode st; scale := scale st;
     stateRef := stateRef st; keepSpecialZoomLevelRef := keepSpecialZoomLevelRef st;
     renderPageIndex := renderPageIndex st; renderQueueKey := renderQueueKey st;
     renderQueue := renderQueue st; pagesRef := pagesRef st; effects := effects st |}.

Definition setCurrentScrollMode (v : ScrollMode) (st : State) : State :=
  {| currentPage := currentPage st; rotation := rotation st;
     pagesRotationChanged := pagesRotationChanged st; pagesRotation := pagesRotation st;
     currentScrollMode := v; scale := scale st;
     stateRef := stateRef st; keepSpecialZoomLevelRef := keepSpecialZoomLevelRef st;
     renderPageIndex := renderPageIndex st; renderQueueKey := renderQueueKey st;
     renderQueue := renderQueue st; pagesRef := pagesRef st; effects := effects st |}.

Definition setScale (v : num) (st : State) : State :=
  {| currentPage := currentPage st; rotation := rotation st;
     pagesRotationChanged := pagesRotationChanged st; pagesRotation := pagesRotation st;
     currentScrollMode := currentScrollMode st; scale := v;
     stateRef := stateRef st; keepSpecialZoomLevelRef := keepSpecialZoomLevelRef st;
     renderPageIndex := renderPageIndex st; renderQueueKey := renderQueueKey st;
     renderQueue := renderQueue st; pagesRef := pagesRef st; effects := effects st |}.

(** The assignment [stateRef.current = v]. *)
Definition setStateRef (v : ViewerState.t) (st : State) : State :=
  {| currentPage := currentPage st; rotation := rotation st;
     pagesRotationChanged := pagesRotationChanged st; pagesRotation := pagesRotation st;
     currentScrollMode := currentScrollMode st; scale := scale st;
     stateRef := v; keepSpecialZoomLevelRef := keepSpecialZoomLevelRef st;
     renderPageIndex := renderPageIndex st; renderQueueKey := renderQueueKey st;
     renderQueue := renderQueue st; pagesRef := pagesRef st; effects := effects st |}.

(** The assignment [keepSpecialZoomLevelRef.current = v]. *)
Definition setKeepSpecialZoomLevelRef (v : option SpecialZoomLevel) (st : State) : State :=
  {| currentPage := currentPage st; rotation := rotation st;
     pagesRotationChanged := pagesRotationChanged st; pagesRotation := pagesRotation st;
     currentScrollMode := currentScrollMode st; scale := scale st;
     stateRef := stateRef st; keepSpecialZoomLevelRef := v;
     renderPageIndex := renderPageIndex st; renderQueueKey := renderQueueKey st;
     renderQueue := renderQueue st; pagesRef := pagesRef st; effects := effects st |}.

Definition setRenderPageIndex (v : Z) (st : State) : State :=
  {| currentPage := currentPage st; rotation := rotation st;
     pagesRotationChanged := pagesRotationChanged st; pagesRotation := pagesRotation st;
     currentScrollMode := currentScrollMode st; scale := scale st;
     stateRef := stateRef st; keepSpecialZoomLevelRef := keepSpecialZoomLevelRef st;
     renderPageIndex := v; renderQueueKey := renderQueueKey st;
     renderQueue := renderQueue st; pagesRef := pagesRef st; effects := effects st |}.

Definition setRenderQueueKey (f : Z -> Z) (st : State) : State :=
  {| currentPage := currentPage st; rotation := rotation st;
     pagesRotationChanged := pagesRotationChanged st; pagesRotation := pagesRotation st;
     currentScrollMode := currentScrollMode st; scale := scale st;
     stateRef := stateRef st; keepSpecialZoomLevelRef := keepSpecialZoomLevelRef st;
     renderPageIndex := renderPageIndex st; renderQueueKey := f (renderQueueKey st);
     renderQueue := renderQueue st; pagesRef := pagesRef st; effects := effects st |}.

(** A call of a mutating method of the render queue. *)
Definition onRenderQueue (f : RenderQueue.t -> RenderQueue.t) (st : State) : State :=
  {| currentPage := currentPage st; rotation := rotation st;
     pagesRotationChanged := pagesRotationChanged st; pagesRotation := pagesRotation st;
     currentScrollMode := currentScrollMode st; scale := scale st;
     stateRef := stateRef st; keepSpecialZoomLevelRef := keepSpecialZoomLevelRef st;
     renderPageIndex := renderPageIndex st; renderQueueKey := renderQueueKey st;
     renderQueue := f (renderQueue st); pagesRef := pagesRef st; effects := effects st |}.

(** A call that leaves the component, appended to the trace. *)
Definition emit (e : Effect) (st : State) : State :=
  {| currentPage := currentPage st; rotation := rotation st;
     pagesRotationChanged := pagesRotationChanged st; pagesRotation := pagesRotation st;
     currentScrollMode := currentScrollMode st; scale := scale st;
     stateRef := stateRef st; keepSpecialZoomLevelRef := keepSpecialZoomLevelRef st;
     renderPageIndex := renderPageIndex st; renderQueueKey := renderQueueKey st;
     renderQueue := renderQueue st; pagesRef := pagesRef st;
     effects := effects st ++ [e] |}.

(** Object spreads [{ ...stateRef.current, field: v }]. *)
Definition withRotation (v : Z) (s : ViewerState.t) : ViewerState.t :=
  {| ViewerState.pageIndex := ViewerState.pageIndex s;
     ViewerState.rotation := v;
     ViewerState.scale := ViewerState.scale s;
     ViewerState.scrollMode := ViewerState.scrollMode s;
     ViewerState.pagesRotation := ViewerState.pagesRotation s;
     ViewerState.rotatedPage := ViewerState.rotatedPage s |}.

Definition withScale (v : num) (s : ViewerState.t) : ViewerState.t :=
  {| ViewerState.pageIndex := ViewerState.pageIndex s;
     ViewerState.rotation := ViewerState.rotation s;
     ViewerState.scale := v;
     ViewerState.scrollMode := ViewerState.scrollMode s;
     ViewerState.pagesRotation := ViewerState.pagesRotation s;
     ViewerState.rotatedPage := ViewerState.rotatedPage s |}.

Definition withScrollMode (v : ScrollMode) (s : ViewerState.t) : ViewerState.t :=
  {| ViewerState.pageIndex := ViewerState.pageIndex s;
     ViewerState.rotation := ViewerState.rotation s;
     ViewerState.scale := ViewerState.scale s;
     ViewerState.scrollMode := v;
     ViewerState.pagesRotation := ViewerState.pagesRotation s;
     ViewerState.rotatedPage := ViewerState.rotatedPage s |}.

Definition withPageIndex (v : Z) (s : ViewerState.t) : ViewerState.t :=
  {| ViewerState.pageIndex := v;
     ViewerState.rotation := ViewerState.rotation s;
     ViewerState.scale := ViewerState.scale s;
     ViewerState.scrollMode := ViewerState.scrollMode s;
     ViewerState.pagesRotation := ViewerState.pagesRotation s;
     ViewerState.rotatedPage := ViewerState.rotatedPage s |}.

Definition withPageRotated (rotations : gmap Z Z) (page : Z) (s : ViewerState.t)
  : ViewerState.t :=
  {| ViewerState.pageIndex := ViewerState.pageIndex s;
     ViewerState.rotation := ViewerState.rotation s;
     ViewerState.scale := ViewerState.scale s;
     ViewerState.scrollMode := ViewerState.scrollMode s;
     ViewerState.pagesRotation := rotations;
     ViewerState.rotatedPage := Some page |}.

(** ** The callbacks of the component *)

Variable props : Props.

Definition NUM_OVERSCAN_PAGES : Z := 3.

(** The state of a freshly mounted component; [pagesEle] is what
    [pagesRef.current] holds once the container is attached. *)
Definition initialState (pagesEle : option Ele) : State :=
  {| currentPage := initialPage props;
     rotation := 0;
     pagesRotationChanged := false;
     pagesRotation := ∅;
     currentScrollMode := scrollMode props;
     scale := PageSize.scale (pageSize props);
     stateRef := viewerState props;
     keepSpecialZoomLevelRef :=
       match defaultScale props with
       | Some (inr level) => Some level
       | _ => None
       end;
     renderPageIndex := -1;
     renderQueueKey := 0;
     renderQueue := RenderQueue.useRenderQueue (numPages props);
     pagesRef := pagesEle;
     effects := [] |}.

(** [Math.abs(rotation) % 180 === 0] selects the unrotated rectangle; the
    remainder of a non-negative dividend is [Z.rem]. *)
Definition estimateSize (st : State) : Rect.t :=
  let sizes := (PageSize.pageHeight (pageSize props), PageSize.pageWidth (pageSize props)) in
  let rect :=
    if Z.rem (Z.abs (rotation st)) 180 =? 0
    then {| Rect.height := fst sizes; Rect.width := snd sizes |}
    else {| Rect.height := snd sizes; Rect.width := fst sizes |} in
  {| Rect.height := num_mul (Rect.height rect) (scale st);
     Rect.width := num_mul (Rect.width rect) (scale st) |}.

Definition setStartRange (startIndex : Z) : Z :=
  Z.max (startIndex - NUM_OVERSCAN_PAGES) 0.

Definition setEndRange (endIndex : Z) : Z :=
  Z.min (endIndex + NUM_OVERSCAN_PAGES) (numPages props - 1).

(** The loop of [setViewerState]: [newState] is threaded through the plugins. *)
Fixpoint notifyPlugins (ps : list Plugin.t) (newState : ViewerState.t) : ViewerState.t :=
  match ps with
  | [] => newState
  | plugin :: rest =>
      match Plugin.onViewerStateChange plugin with
      | Some hook => notifyPlugins rest (hook newState)
      | None => notifyPlugins rest newState
      end
  end.

Definition setViewerState (viewerState : ViewerState.t) (st : State) : State :=
  setStateRef (notifyPlugins (plugins props) viewerState) st.

Definition getViewerState (st : State) : ViewerState.t := stateRef st.

Definition getPagesContainer (st : State) : option Ele := pagesRef st.

Definition jumpToPage (pageIndex : Z) (st : State) : State :=
  if (0 <=? pageIndex) && (pageIndex <? numPages props)
  then emit (ScrollToItem pageIndex 0 0) st
  else st.

Definition degreesOf (direction : RotateDirection) : Z :=
  if decide (direction = Backward) then -90 else 90.

Definition rotate (direction : RotateDirection) (st : State) : State :=
  let degrees := degreesOf direction in
  let currentRotation := ViewerState.rotation (stateRef st) in
  let updateRotation :=
    if (currentRotation =? 360) || (currentRotation =? -360)
    then degrees
    else currentRotation + degrees in
  let st := onRenderQueue RenderQueue.markNotRendered st in
  let st := setRotation updateRotation st in
  let st := setViewerState (withRotation updateRotation (stateRef st)) st in
  emit (OnRotate direction updateRotation) st.

(** [rotations.set] updates the map held by [stateRef.current] in place and
    returns it; the same map is then stored in the state cell and in the
    viewer state, so all three hold the updated map. *)
Definition rotatePage (pageIndex : Z) (direction : RotateDirection) (st : State) : State :=
  let degrees := degreesOf direction in
  let rotations := ViewerState.pagesRotation (stateRef st) in
  let currentPageRotation := default 0 (rotations !! pageIndex) in
  let finalRotation := currentPageRotation + degrees in
  let updateRotations := <[pageIndex := finalRotation]> rotations in
  let st := setPagesRotation updateRotations st in
  let st := setPagesRotationChanged negb st in
  let st := setViewerState (withPageRotated updateRotations pageIndex (stateRef st)) st in
  let st := emit (OnRotatePage direction pageIndex finalRotation) st in
  let st := onRenderQueue (RenderQueue.markRendering pageIndex) st in
  setRenderPageIndex pageIndex st.

Definition switchScrollMode (scrollMode : ScrollMode) (st : State) : State :=
  let st := setViewerState (withScrollMode scrollMode (stateRef st)) st in
  setCurrentScrollMode scrollMode st.

(** [newScale] is a number ([inl]) or a special zoom level ([inr]). *)
Definition zoom (newScale : num + SpecialZoomLevel) (st : State) : State :=
  let pagesEle := pagesRef st in
  let updateScale :=
    match pagesEle with
    | Some ele =>
        match newScale with
        | inr level =>
            calculateScale ele (PageSize.pageHeight (pageSize props))
              (PageSize.pageWidth (pageSize props)) level
        | inl n => n
        end
    | None => num_one
    end in
  let st :=
    setKeepSpecialZoomLevelRef
      (match newScale with inr level => Some level | inl _ => None end) st in
  if num_eqb updateScale (ViewerState.scale (stateRef st))
  then st
  else
    let st := emit (VirtualizerZoom (num_div updateScale (ViewerState.scale (stateRef st)))) st in
    let st := setRenderQueueKey (fun key => key + 1) st in
    let st := onRenderQueue RenderQueue.markNotRendered st in
    let st := setScale updateScale st in
    let st := emit (OnZoom updateScale) st in
    setViewerState (withScale updateScale (stateRef st)) st.

(** The body of the resize handler, without its debouncing; the empty string
    is the one falsy value of a string-valued ref. *)
Definition handlePagesResize (st : State) : State :=
  match keepSpecialZoomLevelRef st with
  | Some level =>
      if String.eqb level ""
      then st
      else zoom (inr level) (setRenderPageIndex (-1) st)
  | None => st
  end.

(** The object literal of the mount effect.  [jumpToDestination] and [openFile]
    work through promises and appear here by name only. *)
Definition pluginMethods : PluginFunctions :=
  ["getPagesContainer"; "getViewerState"; "jumpToDestination"; "jumpToPage";
   "openFile"; "rotate"; "rotatePage"; "setViewerState"; "switchScrollMode";
   "zoom"]%string.

(** [plugins.forEach] of the mount effect; [i] is the position of the head of
    [ps] in the plugins array. *)
Fixpoint installFrom (i : nat) (ps : list Plugin.t) (st : State) : State :=
  match ps with
  | [] => st
  | plugin :: rest =>
      installFrom (S i) rest
        (if Plugin.install plugin then emit (PluginInstall i pluginMethods) st else st)
  end.

(** [plugins.forEach] of the cleanup function returned by the mount effect. *)
Fixpoint uninstallFrom (i : nat) (ps : list Plugin.t) (st : State) : State :=
  match ps with
  | [] => st
  | plugin :: rest =>
      uninstallFrom (S i) rest
        (if Plugin.uninstall plugin then emit (PluginUninstall i pluginMethods) st else st)
  end.

Definition installPlugins (st : State) : State := installFrom 0 (plugins props) st.

Definition uninstallPlugins (st : State) : State := uninstallFrom 0 (plugins props) st.

Definition renderNextPage (st : State) : State :=
  let nextPage := RenderQueue.getHighestPriorityPage (renderQueue st) in
  if (-1 <? nextPage) && RenderQueue.isInRange (renderQueue st) nextPage
  then setRenderPageIndex nextPage (onRenderQueue (RenderQueue.markRendering nextPage) st)
  else st.

Definition handlePageRenderCompleted (pageIndex : Z) (st : State) : State :=
  renderNextPage (onRenderQueue (RenderQueue.markRendered pageIndex) st).

(** The loop [for (let i = startRange; i <= endRange; i++)] of the last effect,
    over the indices still to visit. *)
Fixpoint recordVisibilities (items : list VirtualItem.t) (indices : list Z)
    (q : RenderQueue.t) : RenderQueue.t :=
  match indices with
  | [] => q
  | i :: rest =>
      match List.find (fun item => VirtualItem.index item =? i) items with
      | Some item =>
          recordVisibilities items rest
            (RenderQueue.setVisibility i (VirtualItem.visibility item) q)
      | None => recordVisibilities items rest q
      end
  end.

(** The effect that runs when the virtualizer's range, the most visible page,
    the rotation or the scale changes. *)
Definition renderRangeEffect (virtualizer : Virtual.t) (st : State) : State :=
  let startRange := Virtual.startRange virtualizer in
  let endRange := Virtual.endRange virtualizer in
  let currentPage := Virtual.maxVisbilityIndex virtualizer in
  let st := setCurrentPage currentPage st in
  let st := setViewerState (withPageIndex currentPage (stateRef st)) st in
  let st := onRenderQueue (RenderQueue.setRange startRange endRange) st in
  let st :=
    onRenderQueue
      (recordVisibilities (Virtual.virtualItems virtualizer)
         (pageIndices startRange endRange)) st in
  renderNextPage st.

Definition executeNamedAction (action : string) (st : State) : State :=
  let previousPage := currentPage st - 1 in
  let nextPage := currentPage st + 1 in
  if String.eqb action "FirstPage" then jumpToPage 0 st
  else if String.eqb action "LastPage" then jumpToPage (numPages props - 1) st
  else if String.eqb action "NextPage" then
    (if nextPage <? numPages props then jumpToPage nextPage st else st)
  else if String.eqb action "PrevPage" then
    (if 0 <=? previousPage then jumpToPage previousPage st else st)
  else st.

(** Modelled from the spec: [hooks/useVirtual] is not among the sources.  It is
    given [setStartRange] and [setEndRange] and reports, for the window
    [startIndex .. endIndex] of visible items, the range those two callbacks
    compute. *)
Definition useVirtual (startIndex endIndex maxVisbilityIndex : Z)
    (virtualItems : list VirtualItem.t) : Virtual.t :=
  {| Virtual.startRange := setStartRange startIndex;
     Virtual.endRange := setEndRange endIndex;
     Virtual.maxVisbilityIndex := maxVisbilityIndex;
     Virtual.virtualItems := virtualItems |}.

(** ** The component as a transition system *)

(** The events that drive the component: its callbacks and effects. *)
Inductive Op :=
| OpSetViewerState (viewerState : ViewerState.t)
| OpJumpToPage (pageIndex : Z)
| OpRotate (direction : RotateDirection)
| OpRotatePage (pageIndex : Z) (direction : RotateDirection)
| OpSwitchScrollMode (scrollMode : ScrollMode)
| OpZoom (newScale : num + SpecialZoomLevel)
| OpPagesResize
| OpInstallPlugins
| OpUninstallPlugins
| OpRenderRange (virtualizer : Virtual.t)
| OpPageRenderCompleted (pageIndex : Z)
| OpRenderNextPage
| OpExecuteNamedAction (action : string).

Definition step (op : Op) (st : State) : State :=
  match op with
  | OpSetViewerState viewerState => setViewerState viewerState st
  | OpJumpToPage pageIndex => jumpToPage pageIndex st
  | OpRotate direction => rotate direction st
  | OpRotatePage pageIndex direction => rotatePage pageIndex direction st
  | OpSwitchScrollMode scrollMode => switchScrollMode scrollMode st
  | OpZoom newScale => zoom newScale st
  | OpPagesResize => handlePagesResize st
  | OpInstallPlugins => installPlugins st
  | OpUninstallPlugins => uninstallPlugins st
  | OpRenderRange virtualizer => renderRangeEffect virtualizer st
  | OpPageRenderCompleted pageIndex => handlePageRenderCompleted pageIndex st
  | OpRenderNextPage => renderNextPage st
  | OpExecuteNamedAction action => executeNamedAction action st
  end.

(** A run of the component: the events are applied from left to right. *)
Fixpoint run (ops : list Op) (st : State) : State :=
  match ops with
  | [] => st
  | op :: rest => run rest (step op st)
  end.

(** The render status of a page in the component's queue. *)
Definition statusOf (st : State) (p : Z) : PageRenderStatus :=
  RenderQueue.renderStatus (renderQueue st) p.

End Component.

(** ** Effects and markup beside the callbacks *)

Section Surroundings.
Context {P : Platform}.
Variable props : Props.

(** The layout effect that follows a change of [currentScrollMode].
    [previousScrollMode] is what [usePrevious] returned, [None] standing for
    [undefined]. *)
Definition scrollModeEffect (previousScrollMode : option ScrollMode) (st : State) : State :=
  let latestPage := ViewerState.pageIndex (stateRef st) in
  if (-1 <? latestPage)
     && negb (bool_decide (previousScrollMode = Some (currentScrollMode st)))
  then emit (ScrollToItem latestPage 0 0) st
  else st.

(** The effect with dependencies [currentPage] and
    [virtualizer.isSmoothScrolling].  [previous] holds the values the two
    dependencies had at the previous render, [None] at mount; the body runs
    only when one of them has changed.  Its only action is a call of the
    host's [onPageChange]; the result is the page passed to it, or [None] when
    it is not called. *)
Definition pageChangeEffect (previous : option (Z * bool)) (isSmoothScrolling : bool)
    (st : State) : option Z :=
  if bool_decide (previous = Some (currentPage st, isSmoothScrolling)) then None
  else if isSmoothScrolling then None
  else if ((ViewerState.pageIndex (stateRef st) =? -1)
           && (currentPage st =? initialPage props))
          || ((currentPage st =? ViewerState.pageIndex (stateRef st))
              && negb (currentPage st =? initialPage props))
  then Some (currentPage st)
  else None.

End Surroundings.

(** The text of [`${n}`] for an integer [n]: its decimal numeral. *)
Definition numberToString (n : Z) : string :=
  NilZero.string_of_int (Z.to_int n).

(** [s.replace(pattern, replacement)] for a string pattern and a replacement
    without [$]: the first occurrence of the pattern, if any, is replaced. *)
Definition replaceFirst (pattern replacement s : string) : string :=
  match String.index 0 pattern s with
  | Some i =>
      String.append (String.substring 0 i s)
        (String.append replacement
           (String.substring (i + String.length pattern)
              (String.length s - (i + String.length pattern)) s))
  | None => s
  end.

(** The [aria-label] that [renderViewer] gives to the region of a page. *)
Definition pageAriaLabel (pageLabel : string) (index : Z) : string :=
  replaceFirst "{{pageIndex}}" (numberToString (index + 1)) pageLabel.

(** The label used when the localization has no [core.pageLabel]. *)
Definition defaultPageLabel : string := "Page {{pageIndex}}".

(** * Vocabulary of the properties *)

(** ** Pages of the queue *)

Section QueueVocabulary.
Import RenderQueue.

(** A page the scheduler may choose: a page of the document that is visible
    and not rendered. *)
Definition eligible (q : RenderQueue.t) (p : Z) : Prop :=
  0 <= p < numPages q /\ isVisible q p = true /\ renderStatus q p = NotRendered.




End QueueVocabulary.

(** ** States of the component *)

Section StateVocabulary.
Context {P : Platform}.

(** What [renderNextPage] does when it schedules page [p]. *)
Definition schedule (p : Z) (st : State) : State :=
  setRenderPageIndex p (onRenderQueue (RenderQueue.markRendering p) st).

(** The range held by the component's queue. *)
Definition rangeOf (st : State) : Z * Z :=
  (RenderQueue.startRange (renderQueue st), RenderQueue.endRange (renderQueue st)).

Definition inRangeOf (st : State) (p : Z) : Prop :=
  RenderQueue.startRange (renderQueue st) <= p <= RenderQueue.endRange (renderQueue st).

(** One plugin's part in a change of the viewer state, as the claim words it:
    the hook is applied when present, and the state passes through unchanged
    otherwise. *)
Definition applyHook (s : ViewerState.t) (plugin : Plugin.t) : ViewerState.t :=
  match Plugin.onViewerStateChange plugin with
  | Some hook => hook s
  | None => s
  end.

(** The viewer state after all plugins, as a left fold over the plugins array. *)
Definition foldViewerState (ps : list Plugin.t) (s : ViewerState.t) : ViewerState.t :=
  fold_left applyHook ps s.

(** The positions, counted from [i], of the plugins that have a given hook. *)
Fixpoint positionsFrom (has : Plugin.t -> bool) (i : nat) (ps : list Plugin.t) : list nat :=
  match ps with
  | [] => []
  | plugin :: rest =>
      if has plugin then i :: positionsFrom has (S i) rest
      else positionsFrom has (S i) rest
  end.

(** The special zoom level [zoom] remembers for its argument. *)
Definition keptLevel (newScale : num + SpecialZoomLevel) : option SpecialZoomLevel :=
  match newScale with
  | inr level => Some level
  | inl _ => None
  end.

(** A plugin whose [onViewerStateChange] hook, if any, hands the rotation on
    as it received it. *)
Definition keepsRotation (plugin : Plugin.t) : Prop :=
  forall hook, Plugin.onViewerStateChange plugin = Some hook ->
  forall s, ViewerState.rotation (hook s) = ViewerState.rotation s.

(** The rotation the claim describes: a quarter turn is added, and a full turn
    counts as none. *)
Definition quarterTurnFrom (current : Z) (direction : RotateDirection) : Z :=
  (if decide (current = 360 \/ current = -360) then 0 else current) +
  match direction with Forward => 90 | Backward => -90 end.

(** The invariant of the rotation: the state cell and the viewer state agree
    on a multiple of 90 between -360 and 360. *)
Definition rotationInvariant (st : State) : Prop :=
  (90 | rotation st) /\ -360 <= rotation st <= 360 /\
  ViewerState.rotation (stateRef st) = rotation st.





(** The scale [zoom] computes from its argument: [updateScale]. *)
Definition zoomTarget (props : Props) (newScale : num + SpecialZoomLevel) (st : State) : num :=
  match pagesRef st with
  | Some ele =>
      match newScale with
      | inr level =>
          calculateScale ele (PageSize.pageHeight (pageSize props))
            (PageSize.pageWidth (pageSize props)) level
      | inl n => n
      end
  | None => num_one
  end.






End StateVocabulary.

(** ** Plugins, turns and traces *)

Section MoreVocabulary.
Context {P : Platform}.

(** A plugin whose [onViewerStateChange] hook, if any, hands one field of the
    viewer state on as it received it. *)
Definition hookKeeps {A : Type} (field : ViewerState.t -> A) (plugin : Plugin.t) : Prop :=
  forall hook, Plugin.onViewerStateChange plugin = Some hook ->
  forall s, field (hook s) = field s.

(** A plugin whose hook keeps what the component displays: the rotation, the
    scale and the scroll mode. *)
Definition keepsDisplay (plugin : Plugin.t) : Prop :=
  hookKeeps ViewerState.rotation plugin /\ hookKeeps ViewerState.scale plugin /\
  hookKeeps ViewerState.scrollMode plugin.

(** Quarter turns forward minus quarter turns backward. *)
Fixpoint netQuarterTurns (directions : list RotateDirection) : Z :=
  match directions with
  | [] => 0
  | Forward :: rest => 1 + netQuarterTurns rest
  | Backward :: rest => netQuarterTurns rest - 1
  end.

Definition isOnZoom (e : Effect) : bool :=
  match e with OnZoom _ => true | _ => false end.

Definition isVirtualizerZoom (e : Effect) : bool :=
  match e with VirtualizerZoom _ => true | _ => false end.

(** The calls of [onZoom] and of [virtualizer.zoom] in a trace. *)
Definition onZoomCalls (trace : list Effect) : nat :=
  length (List.filter isOnZoom trace).

Definition virtualizerZoomCalls (trace : list Effect) : nat :=
  length (List.filter isVirtualizerZoom trace).

(** The state cells show what the viewer state says. *)
Definition mirrorsViewerState (st : State) : Prop :=
  rotation st = ViewerState.rotation (stateRef st) /\
  scale st = ViewerState.scale (stateRef st) /\
  currentScrollMode st = ViewerState.scrollMode (stateRef st).

(** The event is a direct call of [setViewerState], as a plugin may make. *)
Definition isSetViewerState (op : Op) : Prop :=
  match op with
  | OpSetViewerState _ => True
  | _ => False
  end.

(** The cells that scheduling, installing and scrolling leave alone. *)
Definition sameDisplay (st st' : State) : Prop :=
  rotation st' = rotation st /\ scale st' = scale st /\
  currentScrollMode st' = currentScrollMode st /\ stateRef st' = stateRef st /\
  renderQueueKey st' = renderQueueKey st.

End MoreVocabulary.

(** * A small viewer to evaluate the callbacks on *)

(** Numbers are integers here, the pages element is a token, and every
    special zoom level computes to scale 2. *)
Definition examplePlatform : Platform :=
  {| num := Z;
     num_mul := Z.mul;
     num_div := Z.div;
     num_eqb := Z.eqb;
     num_one := 1;
     Ele := unit;
     calculateScale := fun _ _ _ _ => 2 |}.

Section Examples.
#[local] Existing Instance examplePlatform.

Definition exampleViewerState : ViewerState.t :=
  {| ViewerState.pageIndex := -1;
     ViewerState.rotation := 0;
     ViewerState.scale := 1;
     ViewerState.scrollMode := Vertical;
     ViewerState.pagesRotation := ∅;
     ViewerState.rotatedPage := None |}.

(** A plugin with the install and uninstall hooks only. *)
Definition pluginPlain : Plugin.t :=
  {| Plugin.install := true;
     Plugin.uninstall := true;
     Plugin.onViewerStateChange := None |}.

(** A plugin whose hook switches the scroll mode and hands the rest on. *)
Definition pluginHorizontal : Plugin.t :=
  {| Plugin.install := false;
     Plugin.uninstall := false;
     Plugin.onViewerStateChange := Some (withScrollMode Horizontal) |}.

(** A plugin whose hook rewrites the rotation of the viewer state. *)
Definition pluginTilt : Plugin.t :=
  {| Plugin.install := false;
     Plugin.uninstall := false;
     Plugin.onViewerStateChange := Some (withRotation 45) |}.

(** A five-page document shown with the default scale ['PageFit']. *)
Definition exampleProps (ps : list Plugin.t) : Props :=
  {| numPages := 5;
     defaultScale := Some (inr "PageFit"%string);
     initialPage := 0;
     pageSize := {| PageSize.pageHeight := 800; PageSize.pageWidth := 600;
                    PageSize.scale := 1 |};
     plugins := ps;
     scrollMode := Vertical;
     viewerState := exampleViewerState |}.

Definition quietProps : Props := exampleProps [pluginPlain; pluginHorizontal].

Definition tiltingProps : Props := exampleProps [pluginTilt].

(** The same document with a plugin that has no state hook. *)
Definition plainProps : Props := exampleProps [pluginPlain].

(** Pages 0 and 1 are on screen, page 0 fully and page 1 by half. *)
Definition exampleItems : list VirtualItem.t :=
  [ {| VirtualItem.index := 0; VirtualItem.visibility := 1%Q |};
    {| VirtualItem.index := 1; VirtualItem.visibility := (1 # 2)%Q |} ].

Definition exampleVirtualizer : Virtual.t := useVirtual quietProps 0 1 0 exampleItems.

(** The mounted viewer after its range effect has run: page 0 is scheduled. *)
Definition exampleScheduled : State :=
  renderRangeEffect quietProps exampleVirtualizer (initialState quietProps (Some tt)).

(** The same viewer once page 0 has been rendered: page 1 is scheduled. *)
Definition exampleRendered : State := handlePageRenderCompleted 0 exampleScheduled.


(** A twenty-page document. *)
Definition longProps : Props :=
  {| numPages := 20;
     defaultScale := None;
     initialPage := 0;
     pageSize := {| PageSize.pageHeight := 800; PageSize.pageWidth := 600;
                    PageSize.scale := 1 |};
     plugins := [pluginPlain];
     scrollMode := Vertical;
     viewerState := exampleViewerState |}.

(** Pages 10 and 11 are on screen. *)
Definition middleVirtualizer : Virtual.t :=
  useVirtual longProps 10 11 10
    [ {| VirtualItem.index := 10; VirtualItem.visibility := 1%Q |};
      {| VirtualItem.index := 11; VirtualItem.visibility := (9 # 10)%Q |} ].

(** Pages 0 and 1 are on screen. *)
Definition topVirtualizer : Virtual.t :=
  useVirtual longProps 0 1 0
    [ {| VirtualItem.index := 0; VirtualItem.visibility := (1 # 2)%Q |};
      {| VirtualItem.index := 1; VirtualItem.visibility := (1 # 4)%Q |} ].

(** The long document shown in the middle, turned, then scrolled to the top. *)
Definition exampleScrolledAway : State :=
  run longProps
    [OpRenderRange middleVirtualizer; OpRotate Forward; OpRenderRange topVirtualizer]
    (initialState longProps (Some tt)).

End Examples.

(** * Properties *)

(** ** Page ranges *)

Lemma elem_of_pageIndices (lo hi p : Z) :
  p ∈ pageIndices lo hi <-> lo <= p <= hi.
Proof.
  unfold pageIndices. rewrite list_elem_of_fmap. split.
  - intros (k & -> & Hk). apply elem_of_seq in Hk. lia.
  - intros Hp. exists (Z.to_nat (p - lo)). split; [lia|].
    apply elem_of_seq. lia.
Qed.


(** ** The render queue *)

Section RenderQueueFacts.
Import RenderQueue.

Lemma elem_of_pagesOfDocument (q : RenderQueue.t) (p : Z) :
  p ∈ pagesOfDocument q <-> 0 <= p < numPages q.
Proof. unfold pagesOfDocument. rewrite elem_of_pageIndices. lia. Qed.

Lemma isCandidate_true (q : RenderQueue.t) (p : Z) :
  isCandidate q p = true <-> isVisible q p = true /\ renderStatus q p = NotRendered.
Proof.
  unfold isCandidate. rewrite andb_true_iff, bool_decide_eq_true. tauto.
Qed.

Lemma eligible_candidate (q : RenderQueue.t) (p : Z) :
  eligible q p <-> p ∈ pagesOfDocument q /\ isCandidate q p = true.
Proof.
  unfold eligible. rewrite elem_of_pagesOfDocument, isCandidate_true. tauto.
Qed.

Lemma isInRange_true (q : RenderQueue.t) (p : Z) :
  isInRange q p = true <-> startRange q <= p <= endRange q.
Proof. unfold isInRange. rewrite andb_true_iff. lia. Qed.

(** The pass returns the page it started with or a candidate of the list. *)
Lemma pickHighest_cases (q : RenderQueue.t) (pages : list Z) :
  forall best,
    pickHighest q pages best = best \/
    (pickHighest q pages best ∈ pages /\
     isCandidate q (pickHighest q pages best) = true).
Proof.
  induction pages as [|p rest IH]; intros best; simpl; [now left|].
  destruct (isCandidate q p) eqn:Hc; simpl.
  - destruct ((best =? -1) || negb (Qle_bool (visibility q p) (visibility q best))).
    + destruct (IH p) as [-> | [Hin Hcand]].
      * right. split; [left | exact Hc].
      * right. split; [now right | exact Hcand].
    + destruct (IH best) as [-> | [Hin Hcand]]; [now left|].
      right. split; [now right | exact Hcand].
  - destruct (IH best) as [-> | [Hin Hcand]]; [now left|].
    right. split; [now right | exact Hcand].
Qed.

(** The pass never lowers the visibility of the page it keeps, and ends on a
    page at least as visible as every candidate of the list. *)
Lemma pickHighest_max (q : RenderQueue.t) (pages : list Z) :
  (forall p, p ∈ pages -> p <> -1) ->
  forall best,
    (best <> -1 ->
       pickHighest q pages best <> -1 /\
       (visibility q best <= visibility q (pickHighest q pages best))%Q) /\
    (forall c, c ∈ pages -> isCandidate q c = true ->
       pickHighest q pages best <> -1 /\
       (visibility q c <= visibility q (pickHighest q pages best))%Q).
Proof.
  induction pages as [|p rest IH]; intros Hne best; simpl.
  - split; [intros Hb; split; [exact Hb | apply Qle_refl]|].
    intros c Hc. inversion Hc.
  - assert (Hp : p <> -1) by (apply Hne; left).
    assert (Hrest : forall x, x ∈ rest -> x <> -1) by (intros x Hx; apply Hne; now right).
    specialize (IH Hrest).
    destruct (isCandidate q p) eqn:Hcand; simpl.
    + destruct (best =? -1) eqn:Hb1; simpl.
      * apply Z.eqb_eq in Hb1. destruct (IH p) as [IHp IHc]. split; [intros Hb; contradiction|].
        intros c Hc Hcc. apply elem_of_cons in Hc as [-> | Hc].
        -- now apply IHp.
        -- now apply IHc.
      * apply Z.eqb_neq in Hb1.
        destruct (Qle_bool (visibility q p) (visibility q best)) eqn:Hle; simpl.
        -- apply Qle_bool_iff in Hle. destruct (IH best) as [IHb IHc].
           specialize (IHb Hb1) as [Hr Hv]. split; [now intros _|].
           intros c Hc Hcc. apply elem_of_cons in Hc as [-> | Hc].
           ++ split; [exact Hr | eapply Qle_trans; eassumption].
           ++ now apply IHc.
        -- assert (Hlt : (visibility q best < visibility q p)%Q).
           { apply Qnot_le_lt. intros H. apply Qle_bool_iff in H. congruence. }
           destruct (IH p) as [IHp IHc]. specialize (IHp Hp) as [Hr Hv]. split.
           ++ intros _. split; [exact Hr|].
              eapply Qle_trans; [apply Qlt_le_weak; exact Hlt | exact Hv].
           ++ intros c Hc Hcc. apply elem_of_cons in Hc as [-> | Hc].
              ** now split.
              ** now apply IHc.
    + destruct (IH best) as [IHb IHc]. split; [exact IHb|].
      intros c Hc Hcc. apply elem_of_cons in Hc as [-> | Hc]; [congruence|].
      now apply IHc.
Qed.

(** What [getHighestPriorityPage] returns: [-1] exactly when no page is
    eligible, and otherwise an eligible page of greatest visibility. *)
Lemma getHighestPriorityPage_spec (q : RenderQueue.t) :
  (getHighestPriorityPage q = -1 /\ forall p, ~ eligible q p) \/
  (eligible q (getHighestPriorityPage q) /\
   forall p, eligible q p ->
     (visibility q p <= visibility q (getHighestPriorityPage q))%Q).
Proof.
  unfold getHighestPriorityPage.
  assert (Hne : forall p, p ∈ pagesOfDocument q -> p <> -1).
  { intros p Hp. apply elem_of_pagesOfDocument in Hp. lia. }
  destruct (pickHighest_max q _ Hne (-1)) as [_ Hmax].
  destruct (pickHighest_cases q (pagesOfDocument q) (-1)) as [Heq | [Hin Hcand]].
  - left. split; [exact Heq|]. intros p Hp. apply eligible_candidate in Hp as [Hin Hc].
    destruct (Hmax p Hin Hc) as [Hr _]. contradiction.
  - right. split; [apply eligible_candidate; now split|].
    intros p Hp. apply eligible_candidate in Hp as [Hin' Hc]. now apply Hmax.
Qed.

End RenderQueueFacts.

(** The status, visibility and range of the queue after each of its
    operations. *)
Section RenderQueueUpdates.
Import RenderQueue.
Variables (q : RenderQueue.t) (p p' : Z).

Lemma renderStatus_markRendering :
  renderStatus (markRendering p q) p' =
  if decide (p' = p) then Rendering else renderStatus q p'.
Proof.
  unfold renderStatus, markRendering; simpl. destruct (decide (p' = p)) as [-> | Hne].
  - now rewrite lookup_insert_eq.
  - now rewrite lookup_insert_ne by congruence.
Qed.

Lemma renderStatus_markRendered :
  renderStatus (markRendered p q) p' =
  if decide (p' = p) then Rendered else renderStatus q p'.
Proof.
  unfold renderStatus, markRendered; simpl. destruct (decide (p' = p)) as [-> | Hne].
  - now rewrite lookup_insert_eq.
  - now rewrite lookup_insert_ne by congruence.
Qed.

Lemma renderStatus_markNotRendered :
  renderStatus (markNotRendered q) p' = NotRendered.
Proof. reflexivity. Qed.

Lemma visibility_setVisibility (v : Q) :
  visibility (setVisibility p v q) p' =
  if decide (p' = p) then v else visibility q p'.
Proof.
  unfold visibility, setVisibility; simpl. destruct (decide (p' = p)) as [-> | Hne].
  - now rewrite lookup_insert_eq.
  - now rewrite lookup_insert_ne by congruence.
Qed.

End RenderQueueUpdates.

Lemma recordVisibilities_frame (items : list VirtualItem.t) (indices : list Z) :
  forall q,
    RenderQueue.numPages (recordVisibilities items indices q) = RenderQueue.numPages q /\
    RenderQueue.startRange (recordVisibilities items indices q) = RenderQueue.startRange q /\
    RenderQueue.endRange (recordVisibilities items indices q) = RenderQueue.endRange q /\
    RenderQueue.statuses (recordVisibilities items indices q) = RenderQueue.statuses q.
Proof.
  induction indices as [|i rest IH]; intros q; simpl; [tauto|].
  destruct (List.find _ items); [|apply IH].
  destruct (IH (RenderQueue.setVisibility i (VirtualItem.visibility t) q))
    as (H1 & H2 & H3 & H4).
  now rewrite H1, H2, H3, H4.
Qed.

(** The loop of the effect records, for each index it visits, the visibility
    of the item found for it, and leaves the other visibilities as they were. *)
Lemma recordVisibilities_visibility (items : list VirtualItem.t) (indices : list Z) (i : Z) :
  forall q,
    RenderQueue.visibility (recordVisibilities items indices q) i =
    match List.find (fun item => VirtualItem.index item =? i) items with
    | Some item =>
        if decide (i ∈ indices) then VirtualItem.visibility item
        else RenderQueue.visibility q i
    | None => RenderQueue.visibility q i
    end.
Proof.
  induction indices as [|j rest IH]; intros q; simpl.
  - destruct (List.find _ items); [|reflexivity].
    destruct (decide (i ∈ [])) as [Hin | _]; [inversion Hin | reflexivity].
  - destruct (decide (i = j)) as [Heq | Hne].
    + subst j. destruct (decide (i ∈ i :: rest)) as [_ | Hn]; [|exfalso; apply Hn; left].
      destruct (List.find (fun item => VirtualItem.index item =? i) items) as [found|] eqn:Hf;
        rewrite IH; [|reflexivity].
      rewrite visibility_setVisibility.
      destruct (decide (i ∈ rest)); [reflexivity|]. now destruct (decide (i = i)).
    + assert (Hfr : forall q',
        RenderQueue.visibility q' i = RenderQueue.visibility q i ->
        RenderQueue.visibility (recordVisibilities items rest q') i =
        match List.find (fun item => VirtualItem.index item =? i) items with
        | Some item =>
            if decide (i ∈ j :: rest) then VirtualItem.visibility item
            else RenderQueue.visibility q i
        | None => RenderQueue.visibility q i
        end).
      { intros q' Hq'. rewrite IH, Hq'.
        destruct (List.find (fun item => VirtualItem.index item =? i) items); [|reflexivity].
        destruct (decide (i ∈ rest)) as [Hin | Hin], (decide (i ∈ j :: rest)) as [Hin' | Hin'];
          try reflexivity; exfalso.
        - apply Hin'. now right.
        - apply elem_of_cons in Hin' as [? | ?]; [congruence | tauto]. }
      destruct (List.find (fun item => VirtualItem.index item =? j) items) as [found|];
        apply Hfr; [|reflexivity].
      rewrite visibility_setVisibility. now destruct (decide (i = j)).
Qed.

(** ** Scheduling the next page *)

Section Scheduling.
Context {P : Platform}.

(** The guard of [renderNextPage], read off the code. *)
Lemma renderNextPage_guard (st : State) :
  let nextPage := RenderQueue.getHighestPriorityPage (renderQueue st) in
  if (-1 <? nextPage) && RenderQueue.isInRange (renderQueue st) nextPage
  then renderNextPage st = schedule nextPage st
  else renderNextPage st = st.
Proof.
  unfold renderNextPage, schedule; simpl.
  now destruct ((-1 <? _) && _).
Qed.


(** C1: [renderNextPage] asks the queue for its highest-priority page, which is
    the visible-but-unrendered page of the document whose recorded visibility
    fraction is the greatest, or [-1] when there is no such page; the recorded
    visibility of a page of the range is that of its item in [virtualItems].
    When the result is a page that passes the [isInRange] test, exactly that
    page is marked as rendering and stored in [renderPageIndex]; when the
    result is [-1] or a page outside the range, the state, and with it the
    queue, is left as it was. *)
Theorem renderNextPage_schedules_highest_priority (st : State) :
  let q := renderQueue st in
  let nextPage := RenderQueue.getHighestPriorityPage q in
  ((nextPage = -1 /\ forall p, ~ eligible q p) \/
   (-1 < nextPage /\ eligible q nextPage /\
    forall p, eligible q p ->
      (RenderQueue.visibility q p <= RenderQueue.visibility q nextPage)%Q)) /\
  (-1 < nextPage -> RenderQueue.isInRange q nextPage = true ->
     renderNextPage st = schedule nextPage st /\
     renderPageIndex (renderNextPage st) = nextPage /\
     renderQueue (renderNextPage st) = RenderQueue.markRendering nextPage q /\
     statusOf (renderNextPage st) nextPage = Rendering) /\
  (nextPage = -1 \/ RenderQueue.isInRange q nextPage = false ->
     renderNextPage st = st) /\
  (forall items startRange endRange i item,
     startRange <= i <= endRange ->
     List.find (fun item => VirtualItem.index item =? i) items = Some item ->
     RenderQueue.visibility
       (recordVisibilities items (pageIndices startRange endRange) q) i =
     VirtualItem.visibility item).
Proof.
  pose proof (renderNextPage_guard st) as Hg.
  pose proof (getHighestPriorityPage_spec (renderQueue st)) as Hs.
  cbv zeta in *. set (q := renderQueue st) in *.
  set (nextPage := RenderQueue.getHighestPriorityPage q) in *.
  split; [|split; [|split]].
  - destruct Hs as [[Heq Hnone] | [Hel Hmax]]; [now left | right].
    split; [destruct Hel as [? _]; lia | now split].
  - intros Hpos Hin. replace (-1 <? nextPage) with true in Hg by lia.
    rewrite Hin in Hg. simpl in Hg. rewrite Hg.
    do 3 (split; [reflexivity|]).
    unfold statusOf, schedule; simpl. rewrite renderStatus_markRendering.
    now destruct (decide (nextPage = nextPage)).
  - intros [Heq | Hout].
    + rewrite Heq in Hg. exact Hg.
    + rewrite Hout, andb_false_r in Hg. exact Hg.
  - intros items lo hi i item Hi Hf. rewrite recordVisibilities_visibility, Hf.
    destruct (decide (i ∈ pageIndices lo hi)) as [_ | Hn]; [reflexivity|].
    exfalso. apply Hn. now apply elem_of_pageIndices.
Qed.

End Scheduling.

(** ** The range of pages that may be rendered *)

Section RenderRange.
Context {P : Platform}.
Variable props : Props.

(** [renderNextPage] keeps the range, and a page it marks as rendering passed
    the [isInRange] guard. *)
Lemma renderNextPage_in_range (st : State) :
  rangeOf (renderNextPage st) = rangeOf st /\
  (forall p, statusOf (renderNextPage st) p = Rendering ->
     statusOf st p = Rendering \/ inRangeOf st p) /\
  (renderPageIndex (renderNextPage st) = renderPageIndex st \/
   inRangeOf st (renderPageIndex (renderNextPage st))).
Proof.
  pose proof (renderNextPage_guard st) as Hg. cbv zeta in Hg.
  destruct (-1 <? _) eqn:Hpos; simpl in Hg;
    [destruct (RenderQueue.isInRange _ _) eqn:Hin|]; rewrite Hg; try (now auto).
  apply isInRange_true in Hin. split; [reflexivity|]. split; [|now right].
  intros p. unfold statusOf, schedule; simpl. rewrite renderStatus_markRendering.
  destruct (decide _) as [-> | _]; [now right | now left].
Qed.

Lemma handlePageRenderCompleted_in_range (c : Z) (st : State) :
  rangeOf (handlePageRenderCompleted c st) = rangeOf st /\
  (forall p, statusOf (handlePageRenderCompleted c st) p = Rendering ->
     statusOf st p = Rendering \/ inRangeOf st p) /\
  (renderPageIndex (handlePageRenderCompleted c st) = renderPageIndex st \/
   inRangeOf st (renderPageIndex (handlePageRenderCompleted c st))).
Proof.
  unfold handlePageRenderCompleted.
  destruct (renderNextPage_in_range (onRenderQueue (RenderQueue.markRendered c) st))
    as (Hr & Hs & Hi).
  split; [exact Hr|]. split; [|exact Hi].
  intros p Hp. destruct (Hs p Hp) as [Hq | Hq]; [|now right].
  unfold statusOf in Hq; simpl in Hq. rewrite renderStatus_markRendered in Hq.
  destruct (decide _); [discriminate | now left].
Qed.

(** Completions that follow one another keep the range and schedule inside it. *)
Lemma completions_in_range (completed : list Z) :
  forall st,
    let st' := run props (OpPageRenderCompleted <$> completed) st in
    rangeOf st' = rangeOf st /\
    (forall p, statusOf st' p = Rendering -> statusOf st p = Rendering \/ inRangeOf st p) /\
    (renderPageIndex st' = renderPageIndex st \/ inRangeOf st (renderPageIndex st')).
Proof.
  induction completed as [|c rest IH]; intros st; [cbn; now auto|].
  rewrite fmap_cons. cbn [run step]. cbv zeta.
  destruct (handlePageRenderCompleted_in_range c st) as (Hr & Hs & Hi).
  destruct (IH (handlePageRenderCompleted c st)) as (Hr' & Hs' & Hi').
  assert (Hsame : forall p, inRangeOf (handlePageRenderCompleted c st) p <-> inRangeOf st p).
  { intros p. unfold inRangeOf. unfold rangeOf in Hr. now inversion Hr as [[H1 H2]]. }
  split; [congruence|]. split.
  - intros p Hp. destruct (Hs' p Hp) as [Hq | Hq]; [now apply Hs | right; now apply Hsame].
  - destruct Hi' as [Heq | Hin]; [rewrite Heq; exact Hi | right; now apply Hsame].
Qed.

(** C2: for every visible window [startIndex .. endIndex] the range of pages
    eligible for rendering is [max (startIndex - 3) 0 .. min (endIndex + 3)
    (numPages - 1)]: the window extended by at most three pages on each side
    and clamped to the page indices.  The effect stores that range in the
    queue, and [renderNextPage], called by the effect and by every later
    completion, marks as rendering, and stores in [renderPageIndex], only a
    page inside it. *)
Theorem render_range_is_overscanned_window
    (st : State) (startIndex endIndex maxVisbilityIndex : Z)
    (virtualItems : list VirtualItem.t) (completed : list Z) :
  let lo := Z.max (startIndex - 3) 0 in
  let hi := Z.min (endIndex + 3) (numPages props - 1) in
  let virtualizer := useVirtual props startIndex endIndex maxVisbilityIndex virtualItems in
  let st' := run props (OpRenderRange virtualizer :: (OpPageRenderCompleted <$> completed)) st in
  (setStartRange startIndex = lo /\ setEndRange props endIndex = hi) /\
  (startIndex - 3 <= lo <= startIndex \/ lo = 0) /\
  (endIndex <= hi <= endIndex + 3 \/ hi = numPages props - 1) /\
  (0 <= lo /\ hi <= numPages props - 1) /\
  rangeOf st' = (lo, hi) /\
  (forall p, RenderQueue.isInRange (renderQueue st') p = true <-> lo <= p <= hi) /\
  (forall p, statusOf st' p = Rendering -> statusOf st p = Rendering \/ lo <= p <= hi) /\
  (renderPageIndex st' = renderPageIndex st \/ lo <= renderPageIndex st' <= hi).
Proof.
  intros lo hi virtualizer st'.
  split; [split; reflexivity|].
  split; [unfold lo; lia|]. split; [unfold hi; lia|]. split; [unfold lo, hi; lia|].
  set (st0 :=
         onRenderQueue
           (recordVisibilities virtualItems (pageIndices lo hi))
           (onRenderQueue (RenderQueue.setRange lo hi)
              (setViewerState props (withPageIndex maxVisbilityIndex (stateRef st))
                 (setCurrentPage maxVisbilityIndex st)))).
  assert (Hst' : st' =
    run props (OpPageRenderCompleted <$> completed) (renderNextPage st0)) by reflexivity.
  destruct (recordVisibilities_frame virtualItems (pageIndices lo hi)
              (RenderQueue.setRange lo hi (renderQueue st))) as (_ & Hs0 & He0 & Hst0).
  assert (Hrange0 : rangeOf st0 = (lo, hi)).
  { unfold rangeOf, st0; simpl. now rewrite Hs0, He0. }
  assert (Hstatus0 : forall p, statusOf st0 p = statusOf st p).
  { intros p. unfold statusOf, RenderQueue.renderStatus, st0; simpl. now rewrite Hst0. }
  assert (Hin0 : forall st1 p, rangeOf st1 = (lo, hi) -> inRangeOf st1 p <-> lo <= p <= hi).
  { intros st1 p Hr. unfold inRangeOf. unfold rangeOf in Hr. now inversion Hr as [[H1 H2]]. }
  destruct (renderNextPage_in_range st0) as (Hr1 & Hs1 & Hi1).
  destruct (completions_in_range completed (renderNextPage st0)) as (Hr2 & Hs2 & Hi2).
  rewrite <- Hst' in Hr2, Hs2, Hi2.
  assert (Hrange1 : rangeOf (renderNextPage st0) = (lo, hi)) by congruence.
  assert (Hrange' : rangeOf st' = (lo, hi)) by congruence.
  split; [exact Hrange'|]. split; [|split].
  - intros p. rewrite isInRange_true. now apply Hin0.
  - intros p Hp. destruct (Hs2 p Hp) as [Hq | Hq]; [|right; now apply (Hin0 _ _ Hrange1)].
    destruct (Hs1 p Hq) as [Hq' | Hq']; [left; now rewrite <- Hstatus0|].
    right. now apply (Hin0 _ _ Hrange0).
  - destruct Hi2 as [Heq | Hin]; [|right; now apply (Hin0 _ _ Hrange1)].
    rewrite Heq. destruct Hi1 as [Heq1 | Hin1]; [left; exact Heq1|].
    right. now apply (Hin0 _ _ Hrange0).
Qed.

End RenderRange.

(** ** Plugins *)

Section Plugins.
Context {P : Platform}.
Variable props : Props.

Lemma notifyPlugins_fold (ps : list Plugin.t) :
  forall s, notifyPlugins ps s = foldViewerState ps s.
Proof.
  induction ps as [|plugin rest IH]; intros s; [reflexivity|].
  simpl. unfold foldViewerState in *; simpl. unfold applyHook at 2.
  destruct (Plugin.onViewerStateChange plugin); apply IH.
Qed.

Lemma foldViewerState_app (ps1 ps2 : list Plugin.t) (s : ViewerState.t) :
  foldViewerState (ps1 ++ ps2) s = foldViewerState ps2 (foldViewerState ps1 s).
Proof. apply fold_left_app. Qed.

(** C5: [setViewerState] stores the left fold of the plugins'
    [onViewerStateChange] hooks over the plugins array, starting from the state
    it is given, and changes nothing else; a plugin with the hook receives the
    state produced by the plugins before it and its result goes on to the
    plugins after it, and a plugin without the hook can be dropped from the
    array without changing the result. *)
Theorem setViewerState_is_left_fold (viewerState : ViewerState.t) (st : State) :
  stateRef (setViewerState props viewerState st) =
    fold_left applyHook (plugins props) viewerState /\
  setViewerState props viewerState st =
    setStateRef (fold_left applyHook (plugins props) viewerState) st /\
  (forall before plugin after,
     plugins props = before ++ plugin :: after ->
     (forall hook, Plugin.onViewerStateChange plugin = Some hook ->
        stateRef (setViewerState props viewerState st) =
          fold_left applyHook after (hook (fold_left applyHook before viewerState))) /\
     (Plugin.onViewerStateChange plugin = None ->
        stateRef (setViewerState props viewerState st) =
          fold_left applyHook (before ++ after) viewerState)).
Proof.
  unfold setViewerState. rewrite notifyPlugins_fold. unfold foldViewerState.
  split; [reflexivity|]. split; [reflexivity|].
  intros before plugin after ->. simpl. rewrite !fold_left_app. simpl.
  split.
  - intros hook Hh. unfold applyHook at 2. now rewrite Hh.
  - intros Hn. unfold applyHook at 2. now rewrite Hn.
Qed.

Lemma elem_of_positionsFrom (has : Plugin.t -> bool) (ps : list Plugin.t) :
  forall i j,
    j ∈ positionsFrom has i ps <->
    (i <= j)%nat /\ exists plugin, ps !! (j - i)%nat = Some plugin /\ has plugin = true.
Proof.
  induction ps as [|plugin rest IH]; intros i j; simpl.
  - split; [intros H; inversion H | intros (_ & pl & H & _); discriminate].
  - assert (Htail : j ∈ positionsFrom has (S i) rest <->
                    (S i <= j)%nat /\
                    exists pl, (plugin :: rest) !! (j - i)%nat = Some pl /\ has pl = true).
    { rewrite IH. split; intros (Hle & pl & Hl & Hh); (split; [lia|]); exists pl; split; auto.
      - replace (j - i)%nat with (S (j - S i)) by lia. exact Hl.
      - replace (j - i)%nat with (S (j - S i)) in Hl by lia. exact Hl. }
    destruct (has plugin) eqn:Hp.
    + rewrite elem_of_cons, Htail. split.
      * intros [-> | (Hle & Hex)]; [|split; [lia | exact Hex]].
        split; [lia|]. exists plugin. now rewrite Nat.sub_diag.
      * intros (Hle & pl & Hl & Hh). destruct (decide (j = i)) as [-> | Hne]; [now left|].
        right. split; [lia|]. now exists pl.
    + rewrite Htail. split.
      * intros (Hle & Hex). split; [lia | exact Hex].
      * intros (Hle & pl & Hl & Hh). destruct (decide (j = i)) as [-> | Hne].
        -- rewrite Nat.sub_diag in Hl. simpl in Hl. congruence.
        -- split; [lia|]. now exists pl.
Qed.

Lemma positionsFrom_sorted (has : Plugin.t -> bool) (ps : list Plugin.t) :
  forall i, StronglySorted lt (positionsFrom has i ps).
Proof.
  induction ps as [|plugin rest IH]; intros i; simpl; [constructor|].
  destruct (has plugin); [|apply IH].
  constructor; [apply IH|]. apply Forall_forall. intros j Hj.
  apply elem_of_positionsFrom in Hj. lia.
Qed.

Lemma positionsFrom_NoDup (has : Plugin.t -> bool) (ps : list Plugin.t) :
  forall i, NoDup (positionsFrom has i ps).
Proof.
  induction ps as [|plugin rest IH]; intros i; simpl; [constructor|].
  destruct (has plugin); [|apply IH].
  constructor; [|apply IH]. intros Hin. apply elem_of_positionsFrom in Hin. lia.
Qed.

Lemma installFrom_effects (ps : list Plugin.t) :
  forall i st,
    effects (installFrom i ps st) =
    effects st ++
      ((fun j => PluginInstall j pluginMethods) <$> positionsFrom Plugin.install i ps).
Proof.
  induction ps as [|plugin rest IH]; intros i st; simpl; [now rewrite app_nil_r|].
  rewrite IH. destruct (Plugin.install plugin); simpl; [|reflexivity].
  now rewrite <- app_assoc.
Qed.

Lemma uninstallFrom_effects (ps : list Plugin.t) :
  forall i st,
    effects (uninstallFrom i ps st) =
    effects st ++
      ((fun j => PluginUninstall j pluginMethods) <$> positionsFrom Plugin.uninstall i ps).
Proof.
  induction ps as [|plugin rest IH]; intros i st; simpl; [now rewrite app_nil_r|].
  rewrite IH. destruct (Plugin.uninstall plugin); simpl; [|reflexivity].
  now rewrite <- app_assoc.
Qed.

(** C6: the mount effect calls the [install] hook of the plugins that have one,
    each exactly once and in the order of the plugins array, with the object
    [pluginMethods], whose properties are exactly the ten operations
    [getPagesContainer], [getViewerState], [jumpToDestination], [jumpToPage],
    [openFile], [rotate], [rotatePage], [setViewerState], [switchScrollMode]
    and [zoom]; its cleanup calls the [uninstall] hook of the plugins that
    have one, each once, in the same order and with the same object. *)
Theorem plugins_installed_once_in_order (st : State) :
  let installed := positionsFrom Plugin.install 0 (plugins props) in
  let uninstalled := positionsFrom Plugin.uninstall 0 (plugins props) in
  effects (installPlugins props st) =
    effects st ++ ((fun j => PluginInstall j pluginMethods) <$> installed) /\
  effects (uninstallPlugins props st) =
    effects st ++ ((fun j => PluginUninstall j pluginMethods) <$> uninstalled) /\
  (forall j, j ∈ installed <->
     exists plugin, plugins props !! j = Some plugin /\ Plugin.install plugin = true) /\
  (forall j, j ∈ uninstalled <->
     exists plugin, plugins props !! j = Some plugin /\ Plugin.uninstall plugin = true) /\
  (NoDup installed /\ StronglySorted lt installed) /\
  (NoDup uninstalled /\ StronglySorted lt uninstalled) /\
  (pluginMethods =
     ["getPagesContainer"; "getViewerState"; "jumpToDestination"; "jumpToPage";
      "openFile"; "rotate"; "rotatePage"; "setViewerState"; "switchScrollMode";
      "zoom"]%string /\
   NoDup pluginMethods /\
   Forall (fun name => name ∈ pluginMethods)
     ["jumpToPage"; "jumpToDestination"; "zoom"; "rotate"; "rotatePage";
      "switchScrollMode"]%string).
Proof.
  intros installed uninstalled.
  split; [apply installFrom_effects|]. split; [apply uninstallFrom_effects|].
  split; [|split].
  - intros j. unfold installed. rewrite elem_of_positionsFrom, Nat.sub_0_r.
    split; [now intros [_ H] | intros H; split; [lia | exact H]].
  - intros j. unfold uninstalled. rewrite elem_of_positionsFrom, Nat.sub_0_r.
    split; [now intros [_ H] | intros H; split; [lia | exact H]].
  - split; [split; [apply positionsFrom_NoDup | apply positionsFrom_sorted]|].
    split; [split; [apply positionsFrom_NoDup | apply positionsFrom_sorted]|].
    split; [reflexivity|]. split.
    + unfold pluginMethods. apply (bool_decide_unpack _). vm_compute. exact I.
    + unfold pluginMethods. repeat constructor; set_solver.
Qed.

End Plugins.

(** ** Page size, navigation, zoom and rotation *)

Section Navigation.
Context {P : Platform}.
Variable props : Props.

(** C7: [estimateSize] returns the page height and the page width, each
    multiplied by the scale, when the absolute value of the rotation is a
    multiple of 180, and the same two products with height and width swapped
    otherwise. *)
Theorem estimateSize_by_rotation (st : State) :
  let pageHeight := PageSize.pageHeight (pageSize props) in
  let pageWidth := PageSize.pageWidth (pageSize props) in
  ((180 | Z.abs (rotation st)) ->
     estimateSize props st =
       {| Rect.height := num_mul pageHeight (scale st);
          Rect.width := num_mul pageWidth (scale st) |}) /\
  (~ (180 | Z.abs (rotation st)) ->
     estimateSize props st =
       {| Rect.height := num_mul pageWidth (scale st);
          Rect.width := num_mul pageHeight (scale st) |}).
Proof.
  intros pageHeight pageWidth. unfold estimateSize.
  assert (Hdiv : Z.rem (Z.abs (rotation st)) 180 = 0 <-> (180 | Z.abs (rotation st))).
  { apply Z.rem_divide. lia. }
  destruct (Z.rem (Z.abs (rotation st)) 180 =? 0) eqn:Hrem; simpl.
  - split; [reflexivity|]. intros Hn. apply Z.eqb_eq in Hrem. tauto.
  - split; [|reflexivity]. intros Hd. apply Z.eqb_neq in Hrem. tauto.
Qed.

Lemma emit_neq (e : Effect) (st : State) : emit e st <> st.
Proof.
  intros Heq. apply (f_equal effects) in Heq. simpl in Heq.
  apply (f_equal length) in Heq. rewrite length_app in Heq. simpl in Heq. lia.
Qed.

Lemma jumpToPage_in_range (pageIndex : Z) (st : State) :
  0 <= pageIndex < numPages props ->
  jumpToPage props pageIndex st = emit (ScrollToItem pageIndex 0 0) st.
Proof.
  intros Hr. unfold jumpToPage.
  replace (0 <=? pageIndex) with true by lia.
  now replace (pageIndex <? numPages props) with true by lia.
Qed.

Lemma jumpToPage_out_of_range (pageIndex : Z) (st : State) :
  ~ (0 <= pageIndex < numPages props) -> jumpToPage props pageIndex st = st.
Proof.
  intros Hr. unfold jumpToPage.
  destruct (0 <=? pageIndex) eqn:H0; [|reflexivity].
  destruct (pageIndex <? numPages props) eqn:H1; [lia | reflexivity].
Qed.

(** C10: [jumpToPage] scrolls to the page exactly when
    [0 <= pageIndex < numPages] and otherwise leaves the state, trace included,
    as it was; [executeNamedAction] scrolls for ['NextPage'] only when
    [currentPage + 1 < numPages] and for ['PrevPage'] only when
    [currentPage - 1 >= 0], in both cases to that page, and does nothing for a
    name other than the four it knows. *)
Theorem jumpToPage_guarded (st : State) (pageIndex : Z) (action : string) :
  (jumpToPage props pageIndex st <> st <-> 0 <= pageIndex < numPages props) /\
  (0 <= pageIndex < numPages props ->
     jumpToPage props pageIndex st = emit (ScrollToItem pageIndex 0 0) st) /\
  (~ (0 <= pageIndex < numPages props) -> jumpToPage props pageIndex st = st) /\
  (executeNamedAction props "NextPage" st <> st ->
     currentPage st + 1 < numPages props /\
     executeNamedAction props "NextPage" st =
       emit (ScrollToItem (currentPage st + 1) 0 0) st) /\
  (executeNamedAction props "NextPage" st =
     if currentPage st + 1 <? numPages props
     then jumpToPage props (currentPage st + 1) st else st) /\
  (executeNamedAction props "PrevPage" st <> st ->
     currentPage st - 1 >= 0 /\
     executeNamedAction props "PrevPage" st =
       emit (ScrollToItem (currentPage st - 1) 0 0) st) /\
  (executeNamedAction props "PrevPage" st =
     if 0 <=? currentPage st - 1
     then jumpToPage props (currentPage st - 1) st else st) /\
  (action <> "FirstPage" -> action <> "LastPage" ->
   action <> "NextPage" -> action <> "PrevPage" ->
     executeNamedAction props action st = st)%string.
Proof.
  split; [|split; [apply jumpToPage_in_range | split; [apply jumpToPage_out_of_range|]]].
  { split.
    - intros Hne. destruct (decide (0 <= pageIndex < numPages props)) as [Hr | Hr]; [exact Hr|].
      now rewrite jumpToPage_out_of_range in Hne.
    - intros Hr. rewrite jumpToPage_in_range by exact Hr. apply emit_neq. }
  assert (Hnext : executeNamedAction props "NextPage" st =
     if currentPage st + 1 <? numPages props
     then jumpToPage props (currentPage st + 1) st else st) by reflexivity.
  assert (Hprev : executeNamedAction props "PrevPage" st =
     if 0 <=? currentPage st - 1
     then jumpToPage props (currentPage st - 1) st else st) by reflexivity.
  split; [|split; [exact Hnext | split; [|split; [exact Hprev|]]]].
  - rewrite Hnext. destruct (currentPage st + 1 <? numPages props) eqn:Hlt; [|congruence].
    intros Hne. split; [lia|]. apply jumpToPage_in_range.
    destruct (decide (0 <= currentPage st + 1 < numPages props)) as [Hr | Hr]; [exact Hr|].
    now rewrite jumpToPage_out_of_range in Hne.
  - rewrite Hprev. destruct (0 <=? currentPage st - 1) eqn:Hle; [|congruence].
    intros Hne. split; [lia|]. apply jumpToPage_in_range.
    destruct (decide (0 <= currentPage st - 1 < numPages props)) as [Hr | Hr]; [exact Hr|].
    now rewrite jumpToPage_out_of_range in Hne.
  - intros H1 H2 H3 H4. unfold executeNamedAction.
    apply String.eqb_neq in H1, H2, H3, H4. now rewrite H1, H2, H3, H4.
Qed.

(** C9, amended: when the computed scale equals the scale of the viewer state,
    [zoom] returns early having written only [keepSpecialZoomLevelRef.current],
    which holds the special level passed in, or null for a number; the scale,
    viewer state, render queue, render-queue key and every other cell are
    unchanged, and the trace is unchanged, so neither [virtualizer.zoom] nor
    [onZoom] is called. *)
Theorem zoom_same_scale_returns_early (newScale : num + SpecialZoomLevel) (st : State) :
  num_eqb (zoomTarget props newScale st) (ViewerState.scale (stateRef st)) = true ->
  let st' := zoom props newScale st in
  st' = setKeepSpecialZoomLevelRef (keptLevel newScale) st /\
  keepSpecialZoomLevelRef st' = keptLevel newScale /\
  scale st' = scale st /\
  stateRef st' = stateRef st /\
  renderQueue st' = renderQueue st /\
  renderQueueKey st' = renderQueueKey st /\
  effects st' = effects st /\
  (currentPage st' = currentPage st /\ rotation st' = rotation st /\
   pagesRotationChanged st' = pagesRotationChanged st /\
   pagesRotation st' = pagesRotation st /\
   currentScrollMode st' = currentScrollMode st /\
   renderPageIndex st' = renderPageIndex st /\ pagesRef st' = pagesRef st).
Proof.
  intros Heq st'.
  assert (Hst' : st' = setKeepSpecialZoomLevelRef (keptLevel newScale) st).
  { unfold st', zoom. cbv zeta. simpl. unfold zoomTarget in Heq. now rewrite Heq. }
  rewrite Hst'. simpl. repeat split.
Qed.

End Navigation.

(** ** The global rotation *)

Section Rotation.
Context {P : Platform}.
Variable props : Props.

Lemma notifyPlugins_rotation (ps : list Plugin.t) :
  Forall keepsRotation ps ->
  forall s, ViewerState.rotation (notifyPlugins ps s) = ViewerState.rotation s.
Proof.
  induction 1 as [|plugin rest Hk _ IH]; intros s; simpl; [reflexivity|].
  destruct (Plugin.onViewerStateChange plugin) as [hook|] eqn:Hh; rewrite IH; [|reflexivity].
  now apply Hk.
Qed.

Lemma rotate_updates_rotation (direction : RotateDirection) (st : State) :
  Forall keepsRotation (plugins props) ->
  let updateRotation :=
    quarterTurnFrom (ViewerState.rotation (stateRef st)) direction in
  rotation (rotate props direction st) = updateRotation /\
  ViewerState.rotation (stateRef (rotate props direction st)) = updateRotation /\
  effects (rotate props direction st) = effects st ++ [OnRotate direction updateRotation].
Proof.
  intros Hk updateRotation.
  assert (Hupd :
    (if (ViewerState.rotation (stateRef st) =? 360)
        || (ViewerState.rotation (stateRef st) =? -360)
     then degreesOf direction
     else ViewerState.rotation (stateRef st) + degreesOf direction) = updateRotation).
  { unfold updateRotation, quarterTurnFrom, degreesOf.
    destruct (decide (_ \/ _)) as [Hfull | Hpart], direction; simpl;
      destruct (_ =? 360) eqn:H1; destruct (_ =? -360) eqn:H2; simpl; lia. }
  unfold rotate. cbv zeta. rewrite Hupd. simpl.
  rewrite notifyPlugins_rotation by exact Hk. now simpl.
Qed.

Lemma quarterTurnFrom_bounds (current : Z) (direction : RotateDirection) :
  (90 | current) -> -360 <= current <= 360 ->
  (90 | quarterTurnFrom current direction) /\
  -360 <= quarterTurnFrom current direction <= 360.
Proof.
  intros [k ->] Hb. unfold quarterTurnFrom.
  destruct (decide (_ \/ _)) as [Hfull | Hpart], direction; split; try lia.
  - now exists (-1).
  - now exists 1.
  - exists (k - 1). lia.
  - exists (k + 1). lia.
Qed.

Lemma rotate_preserves_invariant (direction : RotateDirection) (st : State) :
  Forall keepsRotation (plugins props) ->
  rotationInvariant st -> rotationInvariant (rotate props direction st).
Proof.
  intros Hk (Hd & Hb & Heq).
  destruct (rotate_updates_rotation direction st Hk) as (Hr & Hs & _).
  unfold rotationInvariant. rewrite Hr, Hs, Heq.
  destruct (quarterTurnFrom_bounds (rotation st) direction Hd Hb) as [Hd' Hb'].
  auto.
Qed.

Lemma rotations_preserve_invariant (directions : list RotateDirection) :
  Forall keepsRotation (plugins props) ->
  forall st, rotationInvariant st ->
  rotationInvariant (run props (OpRotate <$> directions) st).
Proof.
  intros Hk. induction directions as [|d rest IH]; intros st Hinv; [exact Hinv|].
  rewrite fmap_cons. cbn [run step]. apply IH. now apply rotate_preserves_invariant.
Qed.

(** C8, amended: provided no plugin's [onViewerStateChange] hook alters the
    rotation, and starting from rotation 0, after any sequence of [rotate]
    calls the rotation is a multiple of 90 between -360 and 360; a further
    [rotate] adds 90 (forward) or -90 (backward), a rotation of exactly 360 or
    -360 counting as 0, and this updated value is the one kept in the state
    cell, stored in the viewer state and reported to [onRotate]. *)
Theorem rotation_is_a_bounded_quarter_turn
    (pagesEle : option Ele) (directions : list RotateDirection)
    (direction : RotateDirection) :
  Forall keepsRotation (plugins props) ->
  ViewerState.rotation (viewerState props) = 0 ->
  let st := run props (OpRotate <$> directions) (initialState props pagesEle) in
  let updateRotation :=
    (if decide (rotation st = 360 \/ rotation st = -360) then 0 else rotation st) +
    match direction with Forward => 90 | Backward => -90 end in
  ((90 | rotation st) /\ -360 <= rotation st <= 360 /\
   ViewerState.rotation (stateRef st) = rotation st) /\
  rotation (rotate props direction st) = updateRotation /\
  ViewerState.rotation (stateRef (rotate props direction st)) = updateRotation /\
  effects (rotate props direction st) = effects st ++ [OnRotate direction updateRotation].
Proof.
  intros Hk H0 st updateRotation.
  assert (Hinv : rotationInvariant st).
  { apply rotations_preserve_invariant; [exact Hk|].
    unfold rotationInvariant; simpl. rewrite H0.
    split; [now exists 0 | split; [lia | reflexivity]]. }
  split; [exact Hinv|].
  destruct Hinv as (_ & _ & Heq).
  pose proof (rotate_updates_rotation direction st Hk) as Hstep.
  cbv zeta in Hstep. rewrite Heq in Hstep. exact Hstep.
Qed.

End Rotation.

(** ** The render lifecycle *)

Section Lifecycle.
Context {P : Platform}.
Variable props : Props.











End Lifecycle.

(** ** Progress of rendering *)

Section Counting.
Context {A : Type} `{EqDecision A}.
Context (Pb Pa : A -> Prop) `{!forall x, Decision (Pb x)} `{!forall x, Decision (Pa x)}.



End Counting.

Section Progress.
Context {P : Platform}.
Import RenderQueue.















End Progress.

(** * Further properties of the component *)

(** ** The render range and the named actions *)

Section RangeAndActions.
Context {P : Platform}.
Variable props : Props.

(** X1: when the window of visible pages lies inside the document, the range
    handed to the render queue contains the whole window, stays inside the
    document, and has at most six pages more than the window. *)
Theorem visible_window_inside_render_range (startIndex endIndex : Z) :
  0 <= startIndex -> startIndex <= endIndex -> endIndex <= numPages props - 1 ->
  (forall i, startIndex <= i <= endIndex ->
     setStartRange startIndex <= i <= setEndRange props endIndex) /\
  0 <= setStartRange startIndex /\
  setEndRange props endIndex <= numPages props - 1 /\
  setEndRange props endIndex - setStartRange startIndex <= (endIndex - startIndex) + 6.
Proof.
  intros H0 Hse He. unfold setStartRange, setEndRange, NUM_OVERSCAN_PAGES.
  split; [intros i Hi|]; lia.
Qed.

(** X2: whatever its name, a named action either leaves the component as it
    was or makes one call of [scrollToItem], to a page of the document and to
    its top left corner; it changes nothing else. *)
Theorem executeNamedAction_scrolls_to_a_page (action : string) (st : State) :
  executeNamedAction props action st = st \/
  exists p, 0 <= p < numPages props /\
            executeNamedAction props action st = emit (ScrollToItem p 0 0) st.
Proof.
  assert (Hjump : forall p, jumpToPage props p st = st \/
            exists p', 0 <= p' < numPages props /\
                       jumpToPage props p st = emit (ScrollToItem p' 0 0) st).
  { intros p. destruct (decide (0 <= p < numPages props)) as [Hr | Hr].
    - right. exists p. split; [exact Hr | now apply jumpToPage_in_range].
    - left. now apply jumpToPage_out_of_range. }
  unfold executeNamedAction.
  repeat match goal with
         | |- context [if ?b then _ else _] => destruct b
         end; auto.
Qed.

(** X3: ['FirstPage'] scrolls to page 0 and ['LastPage'] to page
    [numPages - 1], each exactly when the document has a page; on a document
    without pages no named action does anything. *)
Theorem first_and_last_page_actions (st : State) :
  (0 < numPages props ->
     executeNamedAction props "FirstPage" st = emit (ScrollToItem 0 0 0) st /\
     executeNamedAction props "LastPage" st =
       emit (ScrollToItem (numPages props - 1) 0 0) st) /\
  (numPages props <= 0 ->
     forall action, executeNamedAction props action st = st).
Proof.
  split.
  - intros Hn. split.
    + change (executeNamedAction props "FirstPage" st) with (jumpToPage props 0 st).
      apply jumpToPage_in_range. lia.
    + change (executeNamedAction props "LastPage" st)
        with (jumpToPage props (numPages props - 1) st).
      apply jumpToPage_in_range. lia.
  - intros Hn action.
    destruct (executeNamedAction_scrolls_to_a_page action st) as [H | (p & Hp & _)];
      [exact H | lia].
Qed.

(** X4: when no plugin has an [onViewerStateChange] hook, [getViewerState]
    returns the very state that [setViewerState] was given. *)
Theorem getViewerState_after_setViewerState (viewerState : ViewerState.t) (st : State) :
  Forall (fun plugin => Plugin.onViewerStateChange plugin = None) (plugins props) ->
  getViewerState (setViewerState props viewerState st) = viewerState.
Proof.
  intros Hnone. unfold getViewerState, setViewerState; simpl.
  revert viewerState. induction Hnone as [|plugin rest Hp _ IH]; intros s; simpl.
  - reflexivity.
  - rewrite Hp. apply IH.
Qed.

End RangeAndActions.

(** ** Turning the document and its pages *)

Section Turning.
Context {P : Platform}.
Variable props : Props.

Lemma notifyPlugins_keeps {A : Type} (field : ViewerState.t -> A) (ps : list Plugin.t) :
  Forall (hookKeeps field) ps ->
  forall s, field (notifyPlugins ps s) = field s.
Proof.
  induction 1 as [|plugin rest Hk _ IH]; intros s; simpl; [reflexivity|].
  destruct (Plugin.onViewerStateChange plugin) as [hook|] eqn:Hh; rewrite IH; [|reflexivity].
  now apply Hk.
Qed.

Lemma quarterTurnFrom_mod (current : Z) (direction : RotateDirection) :
  (360 | quarterTurnFrom current direction - current
         - 90 * netQuarterTurns [direction]).
Proof.
  unfold quarterTurnFrom.
  destruct (decide (_ \/ _)) as [[-> | ->] | _], direction; simpl.
  - exists (-1). lia.
  - exists (-1). lia.
  - exists 1. lia.
  - exists 1. lia.
  - exists 0. lia.
  - exists 0. lia.
Qed.

Lemma rotations_count_quarter_turns (directions : list RotateDirection) :
  Forall keepsRotation (plugins props) ->
  forall st, rotationInvariant st ->
  (360 | rotation (run props (OpRotate <$> directions) st) - rotation st
         - 90 * netQuarterTurns directions).
Proof.
  intros Hk. induction directions as [|d rest IH]; intros st Hinv.
  - simpl. exists 0. lia.
  - rewrite fmap_cons. cbn [run step].
    pose proof (rotate_preserves_invariant props d st Hk Hinv) as Hinv'.
    destruct (IH _ Hinv') as [a Ha].
    destruct (rotate_updates_rotation props d st Hk) as (Hr & _ & _).
    destruct Hinv as (_ & _ & Heq). rewrite Heq in Hr.
    destruct (quarterTurnFrom_mod (rotation st) d) as [b Hb].
    rewrite <- Hr in Hb. exists (a + b).
    destruct d; simpl in *; lia.
Qed.

(** X5: provided no plugin's hook alters the rotation, and starting from
    rotation 0, after any sequence of [rotate] calls the rotation equals 90
    times the number of forward turns minus the number of backward turns,
    modulo 360: the page is shown in the orientation the turns add up to. *)
Theorem rotation_counts_quarter_turns
    (pagesEle : option Ele) (directions : list RotateDirection) :
  Forall keepsRotation (plugins props) ->
  ViewerState.rotation (viewerState props) = 0 ->
  (360 | rotation (run props (OpRotate <$> directions) (initialState props pagesEle))
         - 90 * netQuarterTurns directions).
Proof.
  intros Hk H0.
  assert (Hinv : rotationInvariant (initialState props pagesEle)).
  { unfold rotationInvariant; simpl. rewrite H0.
    split; [now exists 0 | split; [lia | reflexivity]]. }
  destruct (rotations_count_quarter_turns directions Hk _ Hinv) as [a Ha].
  simpl in Ha. exists a. lia.
Qed.

(** X6: when the rotation is a multiple of 90 between -360 and 360 that the
    viewer state agrees on, and no plugin's hook alters the rotation, [rotate]
    in either direction swaps the estimated height and width of a page. *)
Theorem rotate_swaps_estimated_size (direction : RotateDirection) (st : State) :
  Forall keepsRotation (plugins props) ->
  rotationInvariant st ->
  Rect.height (estimateSize props (rotate props direction st)) =
    Rect.width (estimateSize props st) /\
  Rect.width (estimateSize props (rotate props direction st)) =
    Rect.height (estimateSize props st).
Proof.
  intros Hk (Hd & Hb & Heq).
  destruct (rotate_updates_rotation props direction st Hk) as (Hr & _ & _).
  rewrite Heq in Hr.
  assert (Hs : scale (rotate props direction st) = scale st) by reflexivity.
  unfold estimateSize. rewrite Hr, Hs. destruct Hd as [k Hk90].
  assert (Hcases : k = -4 \/ k = -3 \/ k = -2 \/ k = -1 \/ k = 0 \/
                   k = 1 \/ k = 2 \/ k = 3 \/ k = 4) by lia.
  rewrite Hk90.
  destruct Hcases as [-> | [-> | [-> | [-> | [-> | [-> | [-> | [-> | ->]]]]]]]];
    destruct direction; split; reflexivity.
Qed.

Lemma rotatePage_pagesRotation (pageIndex : Z) (direction : RotateDirection) (st : State) :
  Forall (hookKeeps ViewerState.pagesRotation) (plugins props) ->
  let updated :=
    <[pageIndex :=
        default 0 (ViewerState.pagesRotation (stateRef st) !! pageIndex)
        + 90 * netQuarterTurns [direction]]>
      (ViewerState.pagesRotation (stateRef st)) in
  ViewerState.pagesRotation (stateRef (rotatePage props pageIndex direction st)) = updated /\
  pagesRotation (rotatePage props pageIndex direction st) = updated.
Proof.
  intros Hk updated.
  assert (Hdeg : degreesOf direction = 90 * netQuarterTurns [direction])
    by now destruct direction.
  unfold rotatePage. cbv zeta. simpl.
  rewrite (notifyPlugins_keeps ViewerState.pagesRotation) by exact Hk. simpl.
  unfold updated. now rewrite Hdeg.
Qed.

(** X7: provided no plugin's hook alters the page rotations, turning one page
    any number of times leaves its rotation at the old value plus 90 times the
    forward turns minus the backward turns, with no reduction modulo 360, and
    leaves the rotation of every other page as it was; after the first turn
    the state cell holds the same map as the viewer state. *)
Theorem rotatePage_accumulates_quarter_turns
    (pageIndex : Z) (directions : list RotateDirection) (st : State) :
  Forall (hookKeeps ViewerState.pagesRotation) (plugins props) ->
  let st' := run props (OpRotatePage pageIndex <$> directions) st in
  default 0 (ViewerState.pagesRotation (stateRef st') !! pageIndex) =
    default 0 (ViewerState.pagesRotation (stateRef st) !! pageIndex)
    + 90 * netQuarterTurns directions /\
  (forall other, other <> pageIndex ->
     ViewerState.pagesRotation (stateRef st') !! other =
     ViewerState.pagesRotation (stateRef st) !! other) /\
  (directions <> [] -> pagesRotation st' = ViewerState.pagesRotation (stateRef st')).
Proof.
  intros Hk. revert st. induction directions as [|d rest IH]; intros st st'.
  - subst st'. simpl. split; [lia|]. split; [reflexivity | congruence].
  - subst st'. rewrite fmap_cons. cbn [run step].
    destruct (rotatePage_pagesRotation pageIndex d st Hk) as (Hs & Hc).
    destruct (IH (rotatePage props pageIndex d st)) as (Hp & Ho & Hcell).
    split; [|split].
    + rewrite Hp, Hs, lookup_insert_eq. simpl. destruct d; lia.
    + intros other Hne. rewrite Ho by exact Hne. rewrite Hs.
      now rewrite lookup_insert_ne by congruence.
    + intros _. destruct rest as [|d' rest'].
      * cbn [fmap list_fmap run]. now rewrite Hc, Hs.
      * apply Hcell. discriminate.
Qed.

End Turning.

(** ** Zooming and resizing *)

Section Zooming.
Context {P : Platform}.
Variable props : Props.

Lemma zoomTarget_zoom (newScale other : num + SpecialZoomLevel) (st : State) :
  zoomTarget props newScale (zoom props other st) = zoomTarget props newScale st.
Proof.
  unfold zoomTarget.
  assert (Hp : pagesRef (zoom props other st) = pagesRef st).
  { unfold zoom. cbv zeta. now destruct (num_eqb _ _). }
  now rewrite Hp.
Qed.

Lemma zoom_cases (newScale : num + SpecialZoomLevel) (st : State) :
  let updateScale := zoomTarget props newScale st in
  let kept := setKeepSpecialZoomLevelRef (keptLevel newScale) st in
  (num_eqb updateScale (ViewerState.scale (stateRef st)) = true /\
   zoom props newScale st = kept) \/
  (num_eqb updateScale (ViewerState.scale (stateRef st)) = false /\
   zoom props newScale st =
     setViewerState props (withScale updateScale (stateRef st))
       (emit (OnZoom updateScale)
          (setScale updateScale
             (onRenderQueue RenderQueue.markNotRendered
                (setRenderQueueKey (fun key => key + 1)
                   (emit (VirtualizerZoom
                            (num_div updateScale (ViewerState.scale (stateRef st))))
                      kept)))))).
Proof.
  unfold zoom, zoomTarget, keptLevel. cbv zeta. simpl.
  destruct (num_eqb _ _); [left | right]; split; reflexivity.
Qed.

(** X8: provided no plugin's hook alters the scale, and the computed scale is
    equal to itself under [===], asking for the same zoom twice does the same
    as asking once: the second call returns early, so the render queue is not
    reset and neither [virtualizer.zoom] nor [onZoom] is called again. *)
Theorem zoom_twice_is_zoom_once (newScale : num + SpecialZoomLevel) (st : State) :
  Forall (hookKeeps ViewerState.scale) (plugins props) ->
  num_eqb (zoomTarget props newScale st) (zoomTarget props newScale st) = true ->
  zoom props newScale (zoom props newScale st) = zoom props newScale st.
Proof.
  intros Hk Hrefl.
  destruct (zoom_cases newScale (zoom props newScale st)) as [[_ H2] | [Hne H2]].
  - rewrite H2. destruct (zoom_cases newScale st) as [[_ ->] | [_ ->]]; reflexivity.
  - exfalso. rewrite zoomTarget_zoom in Hne.
    destruct (zoom_cases newScale st) as [[Heq H1] | [_ H1]]; rewrite H1 in Hne.
    + simpl in Hne. congruence.
    + simpl in Hne. rewrite (notifyPlugins_keeps ViewerState.scale) in Hne by exact Hk.
      simpl in Hne. congruence.
Qed.

(** X9: a resize that follows a zoom to a number does nothing: the numeric
    zoom has cleared the special level that the resize handler would zoom to. *)
Theorem resize_after_numeric_zoom (n : num) (st : State) :
  handlePagesResize props (zoom props (inl n) st) = zoom props (inl n) st.
Proof.
  assert (Hk : keepSpecialZoomLevelRef (zoom props (inl n) st) = None).
  { destruct (zoom_cases (inl n) st) as [[_ ->] | [_ ->]]; reflexivity. }
  unfold handlePagesResize. now rewrite Hk.
Qed.

(** X10: when the viewer keeps a special zoom level and that level still
    computes to the scale of the viewer state, the resize handler only sets
    [renderPageIndex] to -1: the render queue and the trace are as before,
    and no page is scheduled. *)
Theorem resize_at_same_scale_unschedules (level : SpecialZoomLevel) (st : State) :
  keepSpecialZoomLevelRef st = Some level ->
  level <> ""%string ->
  num_eqb (zoomTarget props (inr level) st) (ViewerState.scale (stateRef st)) = true ->
  handlePagesResize props st = setRenderPageIndex (-1) st /\
  renderQueue (handlePagesResize props st) = renderQueue st /\
  effects (handlePagesResize props st) = effects st.
Proof.
  intros Hkept Hne Heq.
  assert (Hr : handlePagesResize props st = setRenderPageIndex (-1) st).
  { unfold handlePagesResize. rewrite Hkept.
    apply String.eqb_neq in Hne. rewrite Hne.
    destruct (zoom_cases (inr level) (setRenderPageIndex (-1) st)) as [[_ ->] | [Hf _]].
    - destruct st; simpl in *. now rewrite Hkept.
    - unfold zoomTarget in *. simpl in Hf. congruence. }
  rewrite Hr. auto.
Qed.

End Zooming.

(** ** What every run keeps *)

Section Runs.
Context {P : Platform}.
Variable props : Props.

Lemma renderNextPage_sameDisplay (st : State) :
  sameDisplay st (renderNextPage st) /\ effects (renderNextPage st) = effects st /\
  currentPage (renderNextPage st) = currentPage st.
Proof.
  pose proof (renderNextPage_guard st) as Hg. cbv zeta in Hg.
  destruct (_ && _); rewrite Hg; now unfold sameDisplay.
Qed.

Lemma installFrom_sameDisplay (ps : list Plugin.t) :
  forall i st, sameDisplay st (installFrom i ps st).
Proof.
  induction ps as [|plugin rest IH]; intros i st; simpl; [now unfold sameDisplay|].
  destruct (IH (S i) (if Plugin.install plugin
                      then emit (PluginInstall i pluginMethods) st else st))
    as (H1 & H2 & H3 & H4 & H5).
  unfold sameDisplay. rewrite H1, H2, H3, H4, H5.
  now destruct (Plugin.install plugin).
Qed.

Lemma uninstallFrom_sameDisplay (ps : list Plugin.t) :
  forall i st, sameDisplay st (uninstallFrom i ps st).
Proof.
  induction ps as [|plugin rest IH]; intros i st; simpl; [now unfold sameDisplay|].
  destruct (IH (S i) (if Plugin.uninstall plugin
                      then emit (PluginUninstall i pluginMethods) st else st))
    as (H1 & H2 & H3 & H4 & H5).
  unfold sameDisplay. rewrite H1, H2, H3, H4, H5.
  now destruct (Plugin.uninstall plugin).
Qed.

Lemma executeNamedAction_sameDisplay (action : string) (st : State) :
  sameDisplay st (executeNamedAction props action st).
Proof.
  destruct (executeNamedAction_scrolls_to_a_page props action st) as [-> | (p & _ & ->)];
    now unfold sameDisplay.
Qed.

Lemma jumpToPage_sameDisplay (pageIndex : Z) (st : State) :
  sameDisplay st (jumpToPage props pageIndex st).
Proof. unfold jumpToPage. now destruct (_ && _). Qed.

Lemma onZoomCalls_app (l1 l2 : list Effect) :
  onZoomCalls (l1 ++ l2) = (onZoomCalls l1 + onZoomCalls l2)%nat.
Proof. unfold onZoomCalls. now rewrite List.filter_app, length_app. Qed.

Lemma virtualizerZoomCalls_app (l1 l2 : list Effect) :
  virtualizerZoomCalls (l1 ++ l2) = (virtualizerZoomCalls l1 + virtualizerZoomCalls l2)%nat.
Proof. unfold virtualizerZoomCalls. now rewrite List.filter_app, length_app. Qed.

Lemma no_zoom_calls_in_hooks (f : nat -> Effect) (positions : list nat) :
  (forall j, isOnZoom (f j) = false /\ isVirtualizerZoom (f j) = false) ->
  onZoomCalls (f <$> positions) = 0%nat /\ virtualizerZoomCalls (f <$> positions) = 0%nat.
Proof.
  intros Hf. unfold onZoomCalls, virtualizerZoomCalls.
  induction positions as [|j rest [IH1 IH2]]; [now split|].
  rewrite fmap_cons. simpl. destruct (Hf j) as [-> ->]. now split.
Qed.

(** What one event adds to the trace and to the render-queue key. *)
Lemma step_zoom_calls (op : Op) (st : State) :
  exists added,
    effects (step props op st) = effects st ++ added /\
    renderQueueKey (step props op st) = renderQueueKey st + Z.of_nat (onZoomCalls added) /\
    virtualizerZoomCalls added = onZoomCalls added.
Proof.
  assert (Hsame : forall st', renderQueueKey st' = renderQueueKey st ->
            effects st' = effects st ->
            exists added, effects st' = effects st ++ added /\
              renderQueueKey st' = renderQueueKey st + Z.of_nat (onZoomCalls added) /\
              virtualizerZoomCalls added = onZoomCalls added).
  { intros st' Hkey He. exists []. rewrite app_nil_r.
    split; [exact He|]. unfold onZoomCalls; simpl. split; [lia | reflexivity]. }
  assert (Hone : forall e st', isOnZoom e = false -> isVirtualizerZoom e = false ->
            renderQueueKey st' = renderQueueKey st -> effects st' = effects st ++ [e] ->
            exists added, effects st' = effects st ++ added /\
              renderQueueKey st' = renderQueueKey st + Z.of_nat (onZoomCalls added) /\
              virtualizerZoomCalls added = onZoomCalls added).
  { intros e st' H1 H2 Hkey He. exists [e]. split; [exact He|].
    unfold onZoomCalls, virtualizerZoomCalls; simpl. rewrite H1, H2. simpl.
    split; [lia | reflexivity]. }
  assert (Hzoom : forall newScale s, effects s = effects st ->
            renderQueueKey s = renderQueueKey st ->
            exists added, effects (zoom props newScale s) = effects st ++ added /\
              renderQueueKey (zoom props newScale s) =
                renderQueueKey st + Z.of_nat (onZoomCalls added) /\
              virtualizerZoomCalls added = onZoomCalls added).
  { intros newScale s He Hkey.
    destruct (zoom_cases props newScale s) as [[_ ->] | [_ ->]]; cbv zeta.
    - exists []. simpl. rewrite app_nil_r, He, Hkey. split; [reflexivity|].
      unfold onZoomCalls; simpl. split; [lia | reflexivity].
    - eexists [VirtualizerZoom _; OnZoom _]. simpl. rewrite He, Hkey, <- app_assoc.
      split; [reflexivity|]. unfold onZoomCalls, virtualizerZoomCalls; simpl.
      split; [lia | reflexivity]. }
  destruct op; cbn [step].
  - now apply Hsame.
  - unfold jumpToPage. destruct (_ && _); [|now apply Hsame].
    now apply (Hone (ScrollToItem pageIndex 0 0)).
  - now eapply (Hone (OnRotate direction _)).
  - now eapply (Hone (OnRotatePage direction pageIndex _)).
  - now apply Hsame.
  - now apply Hzoom.
  - unfold handlePagesResize. destruct (keepSpecialZoomLevelRef st) as [level|];
      [|now apply Hsame].
    destruct (String.eqb level ""); [now apply Hsame|]. now apply Hzoom.
  - destruct (installFrom_sameDisplay (plugins props) 0 st) as (_ & _ & _ & _ & Hkey).
    eexists. split; [apply installFrom_effects|].
    destruct (no_zoom_calls_in_hooks (fun j => PluginInstall j pluginMethods)
                (positionsFrom Plugin.install 0 (plugins props))) as [-> ->]; [now split|].
    unfold installPlugins. rewrite Hkey. split; [simpl; lia | reflexivity].
  - destruct (uninstallFrom_sameDisplay (plugins props) 0 st) as (_ & _ & _ & _ & Hkey).
    eexists. split; [apply uninstallFrom_effects|].
    destruct (no_zoom_calls_in_hooks (fun j => PluginUninstall j pluginMethods)
                (positionsFrom Plugin.uninstall 0 (plugins props))) as [-> ->]; [now split|].
    unfold uninstallPlugins. rewrite Hkey. split; [simpl; lia | reflexivity].
  - unfold renderRangeEffect. cbv zeta.
    match goal with |- context [renderNextPage ?s] =>
      destruct (renderNextPage_sameDisplay s) as ((_ & _ & _ & _ & Hkey) & He & _)
    end.
    exists []. rewrite app_nil_r, He, Hkey. simpl. split; [reflexivity|].
    unfold onZoomCalls; simpl. split; [lia | reflexivity].
  - unfold handlePageRenderCompleted.
    match goal with |- context [renderNextPage ?s] =>
      destruct (renderNextPage_sameDisplay s) as ((_ & _ & _ & _ & Hkey) & He & _)
    end.
    exists []. rewrite app_nil_r, He, Hkey. simpl. split; [reflexivity|].
    unfold onZoomCalls; simpl. split; [lia | reflexivity].
  - destruct (renderNextPage_sameDisplay st) as ((_ & _ & _ & _ & Hkey) & He & _).
    now apply Hsame.
  - destruct (executeNamedAction_scrolls_to_a_page props action st)
      as [-> | (p & _ & ->)]; [now apply Hsame|].
    now apply (Hone (ScrollToItem p 0 0)).
Qed.

(** X11: along any run of the component the render-queue key never decreases:
    it grows by exactly the number of [onZoom] calls the run adds to the
    trace, and the run adds as many [virtualizer.zoom] calls as [onZoom]
    calls. *)
Theorem render_queue_key_counts_zooms (ops : list Op) (st : State) :
  exists added,
    effects (run props ops st) = effects st ++ added /\
    renderQueueKey (run props ops st) = renderQueueKey st + Z.of_nat (onZoomCalls added) /\
    virtualizerZoomCalls added = onZoomCalls added /\
    renderQueueKey st <= renderQueueKey (run props ops st).
Proof.
  revert st. induction ops as [|op rest IH]; intros st; cbn [run].
  - exists []. rewrite app_nil_r. unfold onZoomCalls; simpl. repeat split; lia.
  - destruct (step_zoom_calls op st) as (a1 & He1 & Hk1 & Hv1).
    destruct (IH (step props op st)) as (a2 & He2 & Hk2 & Hv2 & _).
    exists (a1 ++ a2). rewrite He2, He1, Hk2, Hk1, <- app_assoc.
    rewrite onZoomCalls_app, virtualizerZoomCalls_app.
    repeat split; lia.
Qed.

Lemma setViewerState_display (viewerState : ViewerState.t) (st : State) :
  Forall keepsDisplay (plugins props) ->
  ViewerState.rotation (stateRef (setViewerState props viewerState st)) =
    ViewerState.rotation viewerState /\
  ViewerState.scale (stateRef (setViewerState props viewerState st)) =
    ViewerState.scale viewerState /\
  ViewerState.scrollMode (stateRef (setViewerState props viewerState st)) =
    ViewerState.scrollMode viewerState.
Proof.
  intros Hk. unfold setViewerState; simpl.
  repeat split; apply notifyPlugins_keeps;
    (eapply Forall_impl; [exact Hk | intros plugin (H1 & H2 & H3); assumption]).
Qed.

Lemma sameDisplay_mirrors (st st' : State) :
  sameDisplay st st' -> mirrorsViewerState st -> mirrorsViewerState st'.
Proof.
  intros (H1 & H2 & H3 & H4 & _) (M1 & M2 & M3). unfold mirrorsViewerState.
  now rewrite H1, H2, H3, H4.
Qed.

Lemma zoom_mirrors (newScale : num + SpecialZoomLevel) (st : State) :
  Forall keepsDisplay (plugins props) ->
  mirrorsViewerState st -> mirrorsViewerState (zoom props newScale st).
Proof.
  intros Hk (M1 & M2 & M3).
  destruct (zoom_cases props newScale st) as [[_ ->] | [_ ->]]; cbv zeta.
  - now unfold mirrorsViewerState.
  - match goal with |- mirrorsViewerState (setViewerState _ ?v ?s) =>
      destruct (setViewerState_display v s Hk) as (R1 & R2 & R3)
    end.
    unfold mirrorsViewerState. rewrite R1, R2, R3. now simpl.
Qed.

Lemma step_mirrors (op : Op) (st : State) :
  Forall keepsDisplay (plugins props) ->
  ~ isSetViewerState op ->
  mirrorsViewerState st -> mirrorsViewerState (step props op st).
Proof.
  intros Hk Hop Hm. pose proof Hm as (M1 & M2 & M3). destruct op; cbn [step].
  - now destruct Hop.
  - eapply sameDisplay_mirrors; [apply jumpToPage_sameDisplay | exact Hm].
  - unfold rotate. cbv zeta.
    match goal with |- mirrorsViewerState (emit _ (setViewerState _ ?v ?s)) =>
      destruct (setViewerState_display v s Hk) as (R1 & R2 & R3)
    end.
    unfold mirrorsViewerState. simpl in *. rewrite R1, R2, R3. now simpl.
  - unfold rotatePage. cbv zeta.
    match goal with |- context [setViewerState _ ?v ?s] =>
      destruct (setViewerState_display v s Hk) as (R1 & R2 & R3)
    end.
    unfold mirrorsViewerState. simpl in *. rewrite R1, R2, R3. now simpl.
  - unfold switchScrollMode. cbv zeta.
    match goal with |- context [setViewerState _ ?v ?s] =>
      destruct (setViewerState_display v s Hk) as (R1 & R2 & R3)
    end.
    unfold mirrorsViewerState. simpl in *. rewrite R1, R2, R3. now simpl.
  - now apply zoom_mirrors.
  - unfold handlePagesResize. destruct (keepSpecialZoomLevelRef st) as [level|]; [|exact Hm].
    destruct (String.eqb level ""); [exact Hm|]. now apply zoom_mirrors.
  - eapply sameDisplay_mirrors; [apply installFrom_sameDisplay | exact Hm].
  - eapply sameDisplay_mirrors; [apply uninstallFrom_sameDisplay | exact Hm].
  - unfold renderRangeEffect. cbv zeta.
    match goal with |- context [renderNextPage ?s] =>
      destruct (renderNextPage_sameDisplay s) as (Hd & _ & _);
      apply (sameDisplay_mirrors s); [exact Hd|]
    end.
    match goal with |- context [setViewerState _ ?v ?s] =>
      destruct (setViewerState_display v s Hk) as (R1 & R2 & R3)
    end.
    unfold mirrorsViewerState. simpl in *. rewrite R1, R2, R3. now simpl.
  - unfold handlePageRenderCompleted.
    match goal with |- context [renderNextPage ?s] =>
      destruct (renderNextPage_sameDisplay s) as (Hd & _ & _);
      apply (sameDisplay_mirrors s); [exact Hd|]
    end.
    exact Hm.
  - destruct (renderNextPage_sameDisplay st) as (Hd & _ & _).
    now apply (sameDisplay_mirrors st).
  - eapply sameDisplay_mirrors; [apply executeNamedAction_sameDisplay | exact Hm].
Qed.

(** X12: provided no plugin's hook alters the rotation, the scale or the
    scroll mode, and the component is mounted with a viewer state that agrees
    with its props (rotation 0, the scale of [pageSize], the [scrollMode]
    prop), then after any run in which [setViewerState] is not called
    directly, the rotation, scale and scroll mode that [getViewerState]
    reports are the ones the component displays. *)
Theorem viewer_state_mirrors_display (pagesEle : option Ele) (ops : list Op) :
  Forall keepsDisplay (plugins props) ->
  ViewerState.rotation (viewerState props) = 0 ->
  ViewerState.scale (viewerState props) = PageSize.scale (pageSize props) ->
  ViewerState.scrollMode (viewerState props) = scrollMode props ->
  Forall (fun op => ~ isSetViewerState op) ops ->
  let st := run props ops (initialState props pagesEle) in
  ViewerState.rotation (getViewerState st) = rotation st /\
  ViewerState.scale (getViewerState st) = scale st /\
  ViewerState.scrollMode (getViewerState st) = currentScrollMode st.
Proof.
  intros Hk H0 Hs Hm Hops st.
  assert (Hinit : mirrorsViewerState (initialState props pagesEle)).
  { unfold mirrorsViewerState; simpl. now rewrite H0, Hs, Hm. }
  assert (Hrun : forall s, mirrorsViewerState s -> mirrorsViewerState (run props ops s)).
  { clear st Hinit. induction Hops as [|op rest Hop _ IH]; intros s Hms; [exact Hms|].
    cbn [run]. apply IH. now apply step_mirrors. }
  destruct (Hrun _ Hinit) as (M1 & M2 & M3). unfold getViewerState. auto.
Qed.

End Runs.

(** ** Effects after a change of scroll mode or of page *)

Section AfterChanges.
Context {P : Platform}.
Variable props : Props.

(** X13: provided no plugin's hook alters the page index, after
    [switchScrollMode] to a mode other than the current one the layout effect
    calls [scrollToItem] for the page of the viewer state, at offset 0, if
    that page index is above -1, and does nothing if it is not; after
    switching to the mode already in use it does nothing. *)
Theorem scroll_mode_switch_returns_to_page (mode : ScrollMode) (st : State) :
  Forall (hookKeeps ViewerState.pageIndex) (plugins props) ->
  let latestPage := ViewerState.pageIndex (stateRef st) in
  let st' := switchScrollMode props mode st in
  scrollModeEffect (Some (currentScrollMode st)) st' =
    if decide (mode <> currentScrollMode st /\ -1 < latestPage)
    then emit (ScrollToItem latestPage 0 0) st'
    else st'.
Proof.
  intros Hk latestPage st'.
  assert (Hp : ViewerState.pageIndex (stateRef st') = latestPage).
  { unfold st', switchScrollMode, setViewerState; simpl.
    now rewrite (notifyPlugins_keeps ViewerState.pageIndex) by exact Hk. }
  assert (Hm : currentScrollMode st' = mode) by reflexivity.
  unfold scrollModeEffect. rewrite Hp, Hm.
  destruct (decide (mode <> currentScrollMode st /\ -1 < latestPage)) as [[Hne Hpos] | Hn].
  - replace (-1 <? latestPage) with true by lia.
    rewrite bool_decide_eq_false_2 by congruence. reflexivity.
  - destruct (-1 <? latestPage) eqn:Hlt; [|reflexivity].
    rewrite bool_decide_eq_true_2; [reflexivity|].
    destruct (decide (mode = currentScrollMode st)) as [-> | Hne]; [reflexivity|].
    exfalso. apply Hn. split; [exact Hne | lia].
Qed.

Lemma renderRangeEffect_currentPage (virtualizer : Virtual.t) (st : State) :
  currentPage (renderRangeEffect props virtualizer st) =
    Virtual.maxVisbilityIndex virtualizer /\
  stateRef (renderRangeEffect props virtualizer st) =
    notifyPlugins (plugins props)
      (withPageIndex (Virtual.maxVisbilityIndex virtualizer) (stateRef st)) /\
  effects (renderRangeEffect props virtualizer st) = effects st.
Proof.
  unfold renderRangeEffect. cbv zeta.
  match goal with |- context [renderNextPage ?s] =>
    destruct (renderNextPage_sameDisplay s) as ((_ & _ & _ & Hs & _) & He & Hc)
  end.
  rewrite Hc, Hs, He. now simpl.
Qed.

(** X14: provided no plugin's hook alters the page index, let the range
    effect take page [m] as the most visible one.  The page-change effect
    then reports [m] to [onPageChange] exactly when one of its dependencies
    has changed (the current page was another page, or smooth scrolling has
    started or stopped), the list is not scrolling smoothly, and [m] is not
    the initial page, unless that is -1.  So a range effect that keeps the
    current page reports nothing, and neither does a return to the initial
    page. *)
Theorem page_change_after_range_effect
    (virtualizer : Virtual.t) (st : State) (wasSmoothScrolling isSmoothScrolling : bool) :
  Forall (hookKeeps ViewerState.pageIndex) (plugins props) ->
  let m := Virtual.maxVisbilityIndex virtualizer in
  let st' := renderRangeEffect props virtualizer st in
  (currentPage st' = m /\ ViewerState.pageIndex (getViewerState st') = m) /\
  pageChangeEffect props (Some (currentPage st, wasSmoothScrolling)) isSmoothScrolling st' =
    if decide ((m <> currentPage st \/ wasSmoothScrolling <> isSmoothScrolling) /\
               isSmoothScrolling = false /\
               ~ (m = initialPage props /\ m <> -1))
    then Some m else None.
Proof.
  intros Hk m st'.
  destruct (renderRangeEffect_currentPage virtualizer st) as (Hc & Hs & _).
  fold st' m in Hc, Hs.
  assert (Hp : ViewerState.pageIndex (stateRef st') = m).
  { rewrite Hs. now rewrite (notifyPlugins_keeps ViewerState.pageIndex) by exact Hk. }
  split; [split; [exact Hc | exact Hp]|].
  unfold pageChangeEffect. rewrite Hc, Hp, Z.eqb_refl.
  destruct (decide (Some (currentPage st, wasSmoothScrolling) = Some (m, isSmoothScrolling)))
    as [Hsame | Hdiff].
  - rewrite bool_decide_eq_true_2 by exact Hsame. injection Hsame as Hm Hw.
    destruct (decide _) as [([Hn | Hn] & _) | _]; congruence.
  - rewrite bool_decide_eq_false_2 by exact Hdiff.
    assert (Hchanged : m <> currentPage st \/ wasSmoothScrolling <> isSmoothScrolling).
    { destruct (decide (m = currentPage st)) as [Hm | Hm]; [|now left].
      right. intros Hw. apply Hdiff. now rewrite Hm, Hw. }
    destruct isSmoothScrolling.
    + destruct (decide _) as [(_ & Hf & _) | _]; [discriminate | reflexivity].
    + destruct (m =? initialPage props) eqn:Hi; simpl.
      * destruct (m =? -1) eqn:H1.
        -- destruct (decide _) as [_ | Hn]; [reflexivity|].
           exfalso. apply Hn. split; [exact Hchanged|]. split; [reflexivity | lia].
        -- destruct (decide _) as [(_ & _ & Hn) | _]; [|reflexivity].
           exfalso. apply Hn. lia.
      * rewrite orb_true_r.
        destruct (decide _) as [_ | Hn]; [reflexivity|].
        exfalso. apply Hn. split; [exact Hchanged|]. split; [reflexivity | lia].
Qed.

(** X15: once the range effect has taken page [m] as the most visible one,
    ['NextPage'] scrolls to page [m + 1] and ['PrevPage'] to page [m - 1],
    each when that page exists, and does nothing when it does not. *)
Theorem named_actions_follow_most_visible_page (virtualizer : Virtual.t) (st : State) :
  let m := Virtual.maxVisbilityIndex virtualizer in
  let st' := renderRangeEffect props virtualizer st in
  executeNamedAction props "NextPage" st' =
    (if decide (0 <= m + 1 < numPages props)
     then emit (ScrollToItem (m + 1) 0 0) st' else st') /\
  executeNamedAction props "PrevPage" st' =
    (if decide (0 <= m - 1 < numPages props)
     then emit (ScrollToItem (m - 1) 0 0) st' else st').
Proof.
  intros m st'.
  destruct (renderRangeEffect_currentPage virtualizer st) as (Hc & _ & _).
  fold st' m in Hc.
  assert (Hnext : executeNamedAction props "NextPage" st' =
     if currentPage st' + 1 <? numPages props
     then jumpToPage props (currentPage st' + 1) st' else st') by reflexivity.
  assert (Hprev : executeNamedAction props "PrevPage" st' =
     if 0 <=? currentPage st' - 1
     then jumpToPage props (currentPage st' - 1) st' else st') by reflexivity.
  rewrite Hnext, Hprev, Hc. split.
  - destruct (decide (0 <= m + 1 < numPages props)) as [Hr | Hr].
    + replace (m + 1 <? numPages props) with true by lia.
      now apply jumpToPage_in_range.
    + destruct (m + 1 <? numPages props); [|reflexivity].
      now apply jumpToPage_out_of_range.
  - destruct (decide (0 <= m - 1 < numPages props)) as [Hr | Hr].
    + replace (0 <=? m - 1) with true by lia.
      now apply jumpToPage_in_range.
    + destruct (0 <=? m - 1); [|reflexivity].
      now apply jumpToPage_out_of_range.
Qed.

End AfterChanges.

(** ** The labels of the pages *)

Lemma append_empty_r (s : string) : String.append s "" = s.
Proof.
  induction s as [|a s IH]; [reflexivity|].
  change (String a (String.append s "") = String a s). now rewrite IH.
Qed.

Lemma append_cancel_l (p a b : string) :
  String.append p a = String.append p b -> a = b.
Proof.
  induction p as [|c p IH]; intros H; [exact H|].
  change (String c (String.append p a) = String c (String.append p b)) in H.
  injection H as H. now apply IH.
Qed.

Lemma numberToString_inj (i j : Z) : numberToString i = numberToString j -> i = j.
Proof.
  unfold numberToString. intros Heq.
  assert (Hparse : forall z,
            NilZero.int_of_string (NilZero.string_of_int (Z.to_int z)) = Some (Z.to_int z)).
  { intros z. apply NilZero.isi; destruct z; simpl; try discriminate;
      intros [= H]; now apply Unsigned.to_uint_nonnil in H. }
  apply (f_equal NilZero.int_of_string) in Heq. rewrite !Hparse in Heq.
  injection Heq as Heq. apply (f_equal Z.of_int) in Heq.
  now rewrite !DecimalZ.of_to in Heq.
Qed.

(** X16: with the default label, the region of the page at index [i] is
    labelled "Page" followed by the decimal numeral of [i + 1], so the labels
    count from 1 and no two pages have the same label. *)
Theorem default_page_labels_count_from_one (i j : Z) :
  pageAriaLabel defaultPageLabel i = String.append "Page " (numberToString (i + 1)) /\
  (pageAriaLabel defaultPageLabel i = pageAriaLabel defaultPageLabel j -> i = j).
Proof.
  assert (Hlabel : forall k,
    pageAriaLabel defaultPageLabel k = String.append "Page " (numberToString (k + 1))).
  { intros k. unfold pageAriaLabel, replaceFirst, defaultPageLabel.
    change (String.index 0 "{{pageIndex}}" "Page {{pageIndex}}") with (Some 5%nat).
    generalize (numberToString (k + 1)). intros numeral.
    match goal with
    | |- String.append ?prefix (String.append _ ?suffix) = _ =>
        replace prefix with "Page "%string by (vm_compute; reflexivity);
        replace suffix with ""%string by (vm_compute; reflexivity)
    end.
    now rewrite append_empty_r. }
  split; [apply Hlabel|].
  rewrite !Hlabel. intros Heq.
  apply append_cancel_l, numberToString_inj in Heq. lia.
Qed.

(** * The theorems on the example viewer *)


(** With a plugin whose hook rewrites the rotation to 45, the first [rotate]
    reports 90 to [onRotate] while 45 is stored, and after the second the
    rotation is 135, which is not a multiple of 90. *)
Lemma tilting_plugin_breaks_quarter_turns :
  let st0 := initialState tiltingProps None in
  let st1 := rotate tiltingProps Forward st0 in
  let st2 := rotate tiltingProps Forward st1 in
  (rotation st0 = 0 /\ ViewerState.rotation (stateRef st0) = 0) /\
  (effects st1 = [OnRotate Forward 90] /\ ViewerState.rotation (stateRef st1) = 45) /\
  (st2 = run tiltingProps (OpRotate <$> [Forward; Forward]) st0 /\
   rotation st2 = 135 /\ ~ (90 | rotation st2)).
Proof.
  intros st0 st1 st2.
  assert (H2 : rotation st2 = 135) by (vm_compute; reflexivity).
  split; [split; reflexivity|]. split; [split; vm_compute; reflexivity|].
  split; [reflexivity|]. split; [exact H2|].
  rewrite H2. intros [k Hk]. lia.
Qed.

(** Zooming to the scale the viewer already has is not without effect: the
    special zoom level the viewer was keeping is forgotten. *)
Lemma zoom_same_scale_forgets_special_level :
  let st := initialState quietProps (Some tt) in
  num_eqb (zoomTarget quietProps (inl 1) st) (ViewerState.scale (stateRef st)) = true /\
  keepSpecialZoomLevelRef st = Some "PageFit"%string /\
  keepSpecialZoomLevelRef (zoom quietProps (inl 1) st) = None /\
  zoom quietProps (inl 1) st <> st.
Proof.
  intros st. split; [reflexivity|]. split; [reflexivity|]. split; [reflexivity|].
  intros Heq. apply (f_equal keepSpecialZoomLevelRef) in Heq. discriminate Heq.
Qed.

(** The example viewer at scale 2, zoomed to a special level that computes to
    scale 2: only the kept level changes. *)
Lemma zoom_same_scale_returns_early_witness :
  let st := zoom quietProps (inl 2) (initialState quietProps (Some tt)) in
  let st' := zoom quietProps (inr "PageWidth"%string) st in
  num_eqb (zoomTarget quietProps (inr "PageWidth"%string) st)
    (ViewerState.scale (stateRef st)) = true /\
  st' = setKeepSpecialZoomLevelRef (Some "PageWidth"%string) st /\
  renderQueueKey st' = renderQueueKey st /\
  effects st' = effects st.
Proof.
  intros st st'.
  assert (Heq : num_eqb (zoomTarget quietProps (inr "PageWidth"%string) st)
                  (ViewerState.scale (stateRef st)) = true) by reflexivity.
  split; [exact Heq|].
  destruct (zoom_same_scale_returns_early quietProps (inr "PageWidth"%string) st Heq)
    as (H1 & _ & _ & _ & _ & H2 & H3 & _).
  split; [exact H1 | split; [exact H2 | exact H3]].
Defined.

(** Five quarter turns forward on the example viewer, whose plugins keep the
    rotation: the rotation is 90 again, and a turn backward brings it to 0. *)
Lemma rotation_is_a_bounded_quarter_turn_witness :
  let st :=
    run quietProps (OpRotate <$> [Forward; Forward; Forward; Forward; Forward])
      (initialState quietProps (Some tt)) in
  Forall keepsRotation (plugins quietProps) /\
  ViewerState.rotation (viewerState quietProps) = 0 /\
  ((90 | rotation st) /\ -360 <= rotation st <= 360 /\
   ViewerState.rotation (stateRef st) = rotation st) /\
  rotation (rotate quietProps Backward st) = 0 /\
  effects (rotate quietProps Backward st) = effects st ++ [OnRotate Backward 0].
Proof.
  intros st.
  assert (Hk : Forall keepsRotation (plugins quietProps)).
  { repeat constructor; intros hook Hh s; simpl in Hh; [discriminate Hh|].
    injection Hh as <-. reflexivity. }
  assert (H0 : ViewerState.rotation (viewerState quietProps) = 0) by reflexivity.
  split; [exact Hk|]. split; [exact H0|].
  destruct (rotation_is_a_bounded_quarter_turn quietProps (Some tt)
              [Forward; Forward; Forward; Forward; Forward] Backward Hk H0)
    as (Hinv & Hr & _ & He).
  split; [exact Hinv|]. split; [exact Hr | exact He].
Defined.

(** On the long document, scrolled from the middle to the top after a turn,
    the queue proposes page 10, outside the range 0 to 4, and
    [renderNextPage] schedules nothing. *)
Lemma proposed_page_outside_range :
  rangeOf exampleScrolledAway = (0, 4) /\
  RenderQueue.getHighestPriorityPage (renderQueue exampleScrolledAway) = 10 /\
  RenderQueue.isInRange (renderQueue exampleScrolledAway) 10 = false /\
  renderNextPage exampleScrolledAway = exampleScrolledAway.
Proof.
  split; [vm_compute; reflexivity|]. split; [vm_compute; reflexivity|].
  split; [vm_compute; reflexivity|].
  pose proof (renderNextPage_guard exampleScrolledAway) as Hg. cbv zeta in Hg.
  match type of Hg with
  | (if ?b then _ else _) => replace b with false in Hg by (vm_compute; reflexivity)
  end.
  exact Hg.
Qed.



(** * The further properties on the example viewer *)

Lemma visible_window_inside_render_range_witness :
  (0 <= 1 /\ 1 <= 2 /\ 2 <= numPages quietProps - 1) /\
  setStartRange 1 = 0 /\ setEndRange quietProps 2 = 4 /\
  setEndRange quietProps 2 - setStartRange 1 <= (2 - 1) + 6.
Proof.
  assert (H0 : 0 <= 1) by lia.
  assert (H1 : 1 <= 2) by lia.
  assert (H2 : 2 <= numPages quietProps - 1) by (simpl; lia).
  split; [auto|].
  destruct (visible_window_inside_render_range quietProps 1 2 H0 H1 H2) as (_ & _ & _ & H).
  split; [reflexivity|]. split; [reflexivity | exact H].
Defined.

Lemma getViewerState_after_setViewerState_witness :
  Forall (fun plugin => Plugin.onViewerStateChange plugin = None) (plugins plainProps) /\
  getViewerState
    (setViewerState plainProps (withRotation 180 exampleViewerState)
       (initialState plainProps None)) =
  withRotation 180 exampleViewerState.
Proof.
  assert (Hn : Forall (fun plugin => Plugin.onViewerStateChange plugin = None)
                 (plugins plainProps)) by (repeat constructor).
  split; [exact Hn|].
  exact (getViewerState_after_setViewerState plainProps
           (withRotation 180 exampleViewerState) (initialState plainProps None) Hn).
Defined.

Lemma quietProps_keep_rotation : Forall keepsRotation (plugins quietProps).
Proof.
  repeat constructor; intros hook Hh s; simpl in Hh; [discriminate Hh|].
  injection Hh as <-. reflexivity.
Defined.

Lemma rotation_counts_quarter_turns_witness :
  let directions := [Forward; Forward; Forward; Forward; Forward; Backward] in
  Forall keepsRotation (plugins quietProps) /\
  ViewerState.rotation (viewerState quietProps) = 0 /\
  netQuarterTurns directions = 4 /\
  (360 | rotation (run quietProps (OpRotate <$> directions)
                     (initialState quietProps (Some tt)))
         - 90 * netQuarterTurns directions).
Proof.
  intros directions.
  assert (H0 : ViewerState.rotation (viewerState quietProps) = 0) by reflexivity.
  split; [exact quietProps_keep_rotation|]. split; [exact H0|]. split; [reflexivity|].
  exact (rotation_counts_quarter_turns quietProps (Some tt) directions
           quietProps_keep_rotation H0).
Defined.

Lemma rotate_swaps_estimated_size_witness :
  let st := initialState quietProps (Some tt) in
  Forall keepsRotation (plugins quietProps) /\
  rotationInvariant st /\
  Rect.height (estimateSize quietProps st) = 800 /\
  Rect.height (estimateSize quietProps (rotate quietProps Forward st)) = 600 /\
  Rect.width (estimateSize quietProps (rotate quietProps Forward st)) = 800.
Proof.
  intros st.
  assert (Hinv : rotationInvariant st).
  { unfold rotationInvariant; simpl. split; [now exists 0 | split; [lia | reflexivity]]. }
  split; [exact quietProps_keep_rotation|]. split; [exact Hinv|]. split; [reflexivity|].
  destruct (rotate_swaps_estimated_size quietProps Forward st
              quietProps_keep_rotation Hinv) as (Hh & Hw).
  split; [rewrite Hh | rewrite Hw]; reflexivity.
Defined.

Lemma rotatePage_accumulates_quarter_turns_witness :
  let directions := [Forward; Forward; Forward; Forward; Forward] in
  let st' := run quietProps (OpRotatePage 2 <$> directions) (initialState quietProps None) in
  Forall (hookKeeps ViewerState.pagesRotation) (plugins quietProps) /\
  default 0 (ViewerState.pagesRotation (stateRef st') !! 2) = 450 /\
  pagesRotation st' = ViewerState.pagesRotation (stateRef st').
Proof.
  intros directions st'.
  assert (Hk : Forall (hookKeeps ViewerState.pagesRotation) (plugins quietProps)).
  { repeat constructor; intros hook Hh s; simpl in Hh; [discriminate Hh|].
    injection Hh as <-. reflexivity. }
  split; [exact Hk|].
  destruct (rotatePage_accumulates_quarter_turns quietProps 2 directions
              (initialState quietProps None) Hk) as (Hp & _ & Hc).
  split; [exact Hp | apply Hc; discriminate].
Defined.

Lemma quietProps_keep_scale : Forall (hookKeeps ViewerState.scale) (plugins quietProps).
Proof.
  repeat constructor; intros hook Hh s; simpl in Hh; [discriminate Hh|].
  injection Hh as <-. reflexivity.
Defined.

Lemma zoom_twice_is_zoom_once_witness :
  let st := initialState quietProps (Some tt) in
  Forall (hookKeeps ViewerState.scale) (plugins quietProps) /\
  num_eqb (zoomTarget quietProps (inl 3) st) (zoomTarget quietProps (inl 3) st) = true /\
  renderQueueKey (zoom quietProps (inl 3) st) = 1 /\
  zoom quietProps (inl 3) (zoom quietProps (inl 3) st) = zoom quietProps (inl 3) st.
Proof.
  intros st.
  assert (Hr : num_eqb (zoomTarget quietProps (inl 3) st)
                 (zoomTarget quietProps (inl 3) st) = true) by reflexivity.
  split; [exact quietProps_keep_scale|]. split; [exact Hr|]. split; [reflexivity|].
  exact (zoom_twice_is_zoom_once quietProps (inl 3) st quietProps_keep_scale Hr).
Defined.

Lemma resize_at_same_scale_unschedules_witness :
  let st :=
    renderRangeEffect quietProps exampleVirtualizer
      (zoom quietProps (inr "PageFit"%string) (initialState quietProps (Some tt))) in
  keepSpecialZoomLevelRef st = Some "PageFit"%string /\
  "PageFit"%string <> ""%string /\
  num_eqb (zoomTarget quietProps (inr "PageFit"%string) st)
    (ViewerState.scale (stateRef st)) = true /\
  renderPageIndex st = 0 /\
  renderPageIndex (handlePagesResize quietProps st) = -1 /\
  renderQueue (handlePagesResize quietProps st) = renderQueue st.
Proof.
  intros st.
  assert (Hkept : keepSpecialZoomLevelRef st = Some "PageFit"%string) by reflexivity.
  assert (Hne : "PageFit"%string <> ""%string) by discriminate.
  assert (Heq : num_eqb (zoomTarget quietProps (inr "PageFit"%string) st)
                  (ViewerState.scale (stateRef st)) = true) by reflexivity.
  split; [exact Hkept|]. split; [exact Hne|]. split; [exact Heq|].
  split; [vm_compute; reflexivity|].
  destruct (resize_at_same_scale_unschedules quietProps "PageFit"%string st Hkept Hne Heq)
    as (Hr & Hq & _).
  split; [rewrite Hr; reflexivity | exact Hq].
Defined.

Lemma viewer_state_mirrors_display_witness :
  let ops :=
    [@OpZoom examplePlatform (inl 3); OpRotate Forward; OpSwitchScrollMode Horizontal;
     OpRenderRange exampleVirtualizer; OpPagesResize; OpRotate Backward] in
  let st := run plainProps ops (initialState plainProps (Some tt)) in
  Forall keepsDisplay (plugins plainProps) /\
  (ViewerState.rotation (viewerState plainProps) = 0 /\
   ViewerState.scale (viewerState plainProps) = PageSize.scale (pageSize plainProps) /\
   ViewerState.scrollMode (viewerState plainProps) = scrollMode plainProps) /\
  Forall (fun op => ~ isSetViewerState op) ops /\
  ViewerState.rotation (getViewerState st) = rotation st /\
  ViewerState.scale (getViewerState st) = scale st /\
  ViewerState.scrollMode (getViewerState st) = currentScrollMode st.
Proof.
  intros ops st.
  assert (Hk : Forall keepsDisplay (plugins plainProps)).
  { repeat constructor; intros hook Hh; simpl in Hh; discriminate Hh. }
  assert (Hops : Forall (fun op => ~ isSetViewerState op) ops).
  { repeat constructor; intros H; exact H. }
  split; [exact Hk|]. split; [repeat split|]. split; [exact Hops|].
  exact (viewer_state_mirrors_display plainProps (Some tt) ops Hk
           eq_refl eq_refl eq_refl Hops).
Defined.

Lemma quietProps_keep_pageIndex :
  Forall (hookKeeps ViewerState.pageIndex) (plugins quietProps).
Proof.
  repeat constructor; intros hook Hh s; simpl in Hh; [discriminate Hh|].
  injection Hh as <-. reflexivity.
Defined.

Lemma scroll_mode_switch_returns_to_page_witness :
  Forall (hookKeeps ViewerState.pageIndex) (plugins quietProps) /\
  ViewerState.pageIndex (stateRef exampleRendered) = 0 /\
  effects (scrollModeEffect (Some (currentScrollMode exampleRendered))
             (switchScrollMode quietProps Horizontal exampleRendered)) =
    effects exampleRendered ++ [ScrollToItem 0 0 0] /\
  scrollModeEffect (Some (currentScrollMode exampleRendered))
    (switchScrollMode quietProps Vertical exampleRendered) =
    switchScrollMode quietProps Vertical exampleRendered.
Proof.
  split; [exact quietProps_keep_pageIndex|]. split; [reflexivity|].
  split.
  - rewrite (scroll_mode_switch_returns_to_page quietProps Horizontal exampleRendered
               quietProps_keep_pageIndex).
    vm_compute. reflexivity.
  - rewrite (scroll_mode_switch_returns_to_page quietProps Vertical exampleRendered
               quietProps_keep_pageIndex).
    reflexivity.
Defined.

Lemma page_change_after_range_effect_witness :
  let away :=
    {| Virtual.startRange := 0; Virtual.endRange := 4;
       Virtual.maxVisbilityIndex := 3; Virtual.virtualItems := [] |} in
  let st0 := initialState quietProps (Some tt) in
  let st1 := renderRangeEffect quietProps away st0 in
  let st2 := renderRangeEffect quietProps away st1 in
  let st3 := renderRangeEffect quietProps exampleVirtualizer st2 in
  Forall (hookKeeps ViewerState.pageIndex) (plugins quietProps) /\
  pageChangeEffect quietProps (Some (currentPage st0, false)) false st1 = Some 3 /\
  pageChangeEffect quietProps (Some (currentPage st1, false)) false st2 = None /\
  pageChangeEffect quietProps (Some (currentPage st2, false)) false st3 = None.
Proof.
  intros away st0 st1 st2 st3.
  split; [exact quietProps_keep_pageIndex|].
  destruct (page_change_after_range_effect quietProps away st0 false false
              quietProps_keep_pageIndex) as (_ & H1).
  destruct (page_change_after_range_effect quietProps away st1 false false
              quietProps_keep_pageIndex) as (_ & H2).
  destruct (page_change_after_range_effect quietProps exampleVirtualizer st2 false false
              quietProps_keep_pageIndex) as (_ & H3).
  split; [etransitivity; [exact H1 | reflexivity]|].
  split; [etransitivity; [exact H2 | reflexivity]|].
  etransitivity; [exact H3 | reflexivity].
Defined.
